(** * Colour-scale generation: a shallow embedding of the colour utilities

    The development follows two source files of the repository:
    - the colour-mix string builders ([colorMix], [transparentize], [lighten],
      [darken]);
    - the scale generators and the two public entry points
      ([colorOptionToAlphaScale], [colorOptionToLightnessScale]).

    JavaScript strings are [string]s, objects are association lists kept in
    property-enumeration order, exceptions are the [Throw] branch of a small
    error monad, and the one piece of global state (the cached feature probe on
    [window]) is threaded explicitly. *)

From Stdlib Require Import ZArith QArith Qfield String Ascii List Bool Lia Lqa.
From Stdlib Require Import DecimalString DecimalPos DecimalZ.
From Stdlib Require Floats.PrimFloat.
From Stdlib Require Uint63.
Import ListNotations.

Local Open Scope list_scope.
Local Open Scope string_scope.
Local Open Scope Z_scope.

(* ================================================================== *)
(** * 1. JavaScript strings and integers printed into templates          *)
(* ================================================================== *)

Module Js.

(** White space skipped by [parseInt] before the sign (the ASCII part of
    ECMAScript's WhiteSpace and LineTerminator classes). *)
Definition isWhiteSpace (c : ascii) : bool :=
  let n := nat_of_ascii c in
  ((n =? 9) || (n =? 10) || (n =? 11) || (n =? 12) || (n =? 13) || (n =? 32))%nat.

Fixpoint trimStart (str : string) : string :=
  match str with
  | String c rest => if isWhiteSpace c then trimStart rest else str
  | EmptyString => str
  end.

(** Value of a character read as a digit: [0-9], [a-z] and [A-Z]. *)
Definition digitValue (c : ascii) : option Z :=
  let n := Z.of_nat (nat_of_ascii c) in
  if (48 <=? n) && (n <=? 57) then Some (n - 48)
  else if (97 <=? n) && (n <=? 122) then Some (n - 87)
  else if (65 <=? n) && (n <=? 90) then Some (n - 55)
  else None.

Definition isRadixDigit (radix : Z) (c : ascii) : bool :=
  match digitValue c with
  | Some d => d <? radix
  | None => false
  end.

(** The longest prefix of radix digits, read left to right into [acc]. *)
Fixpoint digitsValue (radix : Z) (str : string) (acc : Z) : Z :=
  match str with
  | String c rest =>
      match digitValue c with
      | Some d => if d <? radix then digitsValue radix rest (acc * radix + d) else acc
      | None => acc
      end
  | EmptyString => acc
  end.

(** [parseInt(str)] with no radix argument: leading white space, an optional
    sign, an optional [0x]/[0X] prefix selecting radix 16, then digits up to the
    first character that is not one.  [None] is [NaN].  The model reads bytes
    and keeps the integer exact.  The engine agrees with it on ASCII text whose
    integer is at most 2^53 in magnitude; beyond that it rounds to binary64,
    and it also skips Unicode white space such as U+00A0 ([readsExactly] below
    delimits the common ground). *)
Definition parseInt (str : string) : option Z :=
  let s1 := trimStart str in
  let '(sign, s2) :=
    match s1 with
    | String "-" rest => (-1, rest)
    | String "+" rest => (1, rest)
    | _ => (1, s1)
    end in
  let '(radix, s3) :=
    match s2 with
    | String "0" (String "x" rest) => (16, rest)
    | String "0" (String "X" rest) => (16, rest)
    | _ => (10, s2)
    end in
  match s3 with
  | String c _ =>
      if isRadixDigit radix c then Some (sign * digitsValue radix s3 0) else None
  | EmptyString => None
  end.

(** Decimal text of an integer, as a template literal prints it when the
    integer is an exact binary64 number below 10^21 in magnitude (from there on
    JavaScript prints exponent notation). *)
Definition intToString (z : Z) : string := NilZero.string_of_int (Z.to_int z).

(** [`${100 - n}`] for the result [n] of [parseInt]: [NaN] stays [NaN]. *)
Definition hundredMinus (n : option Z) : option Z := option_map (fun z => 100 - z) n.

Definition numberToString (n : option Z) : string :=
  match n with
  | Some z => intToString z
  | None => "NaN"
  end.

(** [arr.join(sep)] on an array of strings. *)
Definition join (sep : string) (parts : list string) : string := String.concat sep parts.

(** A string is truthy unless it is empty. *)
Definition truthyString (str : string) : bool :=
  match str with
  | EmptyString => false
  | String _ _ => true
  end.

(** [Number.MAX_SAFE_INTEGER]: up to here every integer is an exact binary64
    number. *)
Definition MAX_SAFE_INTEGER : Z := 2 ^ 53 - 1.

Fixpoint isAscii (str : string) : bool :=
  match str with
  | String c rest => (nat_of_ascii c <? 128)%nat && isAscii rest
  | EmptyString => true
  end.

(** The strings that [parseInt], [hundredMinus] and [numberToString] treat as
    the engine does: ASCII text (bytes are code units, white space is ASCII
    white space) whose integer, if it has one, leaves [100 - n] within the
    exact integers of binary64. *)
Definition readsExactly (str : string) : bool :=
  isAscii str
  && match parseInt str with
     | Some z => Z.abs z <=? MAX_SAFE_INTEGER - 100
     | None => true
     end.

End Js.

(* ================================================================== *)
(** * 2. The colour-mix primitives                                       *)
(* ================================================================== *)

(** A percentage string such as ["10%"]: the type is a template-literal type
    over [string], so any string can flow in at run time. *)
Definition Percentage := string.

Definition colorMix (colorOne colorTwo : string) : string :=
  "color-mix(in oklch, " ++ colorOne ++ ", " ++ colorTwo ++ ")".

Definition transparentize (color : string) (percentage : Percentage) : string :=
  colorMix (color ++ " " ++ percentage) "transparent".

Definition lighten (color : string) (percentage : Percentage) : string :=
  colorMix
    (color ++ " " ++ Js.numberToString (Js.hundredMinus (Js.parseInt percentage)) ++ "%")
    ("white " ++ percentage).

Definition darken (color : string) (percentage : Percentage) : string :=
  colorMix
    (color ++ " " ++ Js.numberToString (Js.hundredMinus (Js.parseInt percentage)) ++ "%")
    "black 10%".


(* ================================================================== *)
(** * 3. Numbers and HSLA colours                                        *)
(* ================================================================== *)

(** The arithmetic the generators use on JavaScript numbers.  The generators
    are written once over this interface; it is instantiated below with the
    rationals (exact arithmetic, where the algebraic statements are proved) and
    with binary64 floats (what the engine computes, used to evaluate concrete
    inputs). *)
Class JsNumber (num : Type) : Type := {
  ofZ : Z -> num;
  nadd : num -> num -> num;
  nsub : num -> num -> num;
  nmul : num -> num -> num;
  ndiv : num -> num -> num
}.

#[export] Instance QNumber : JsNumber Q := {
  ofZ := inject_Z;
  nadd := Qplus;
  nsub := Qminus;
  nmul := Qmult;
  ndiv := Qdiv
}.

(** Integer constants as binary64 numbers (the constants of this file are
    small; the conversion is exact below 2^53). *)
Definition floatOfZ (z : Z) : PrimFloat.float :=
  match z with
  | Z0 => PrimFloat.zero
  | Zpos _ => PrimFloat.of_uint63 (Uint63.of_Z z)
  | Zneg p => PrimFloat.opp (PrimFloat.of_uint63 (Uint63.of_Z (Zpos p)))
  end.

#[export] Instance FloatNumber : JsNumber PrimFloat.float := {
  ofZ := floatOfZ;
  nadd := PrimFloat.add;
  nsub := PrimFloat.sub;
  nmul := PrimFloat.mul;
  ndiv := PrimFloat.div
}.

(** A decimal literal with two fractional digits, such as [0.02]: the number
    [k/100] (for binary64 the correctly rounded quotient is the literal's
    value). *)
Definition hundredths {num : Type} `{JsNumber num} (k : Z) : num :=
  ndiv (ofZ k) (ofZ 100).

(** Modelled from the spec: the type [HslaColor] is imported from
    [@clerk/types], which is not among the sources; the spec (Data model)
    gives it the four channels hue, saturation, lightness and alpha. *)
Record HslaColor (num : Type) : Type := mkHslaColor {
  h : num;
  s : num;
  l : num;
  a : num
}.

Arguments mkHslaColor {num} _ _ _ _.
Arguments h {num} _.
Arguments s {num} _.
Arguments l {num} _.
Arguments a {num} _.

(** A CSS colour string in [hsla(...)] form; opaque here. *)
Definition HslaColorString := string.

(** Modelled from the spec: [colors.changeHslaLightness] lives in the module
    [./colors], which is not among the sources.  The spec (External
    interfaces) describes it as "shift lightness by a signed delta", a total
    function; hue, saturation and alpha are carried over. *)
Definition changeHslaLightness {num : Type} `{JsNumber num}
    (color : HslaColor num) (lightness : num) : HslaColor num :=
  {| h := h color; s := s color; l := nadd (l color) lightness; a := a color |}.

(** Modelled from the spec: [colors.setHslaAlpha] lives in the module
    [./colors], which is not among the sources.  The spec (External
    interfaces) describes it as "set alpha channel", a total function. *)
Definition setHslaAlpha {num : Type} (color : HslaColor num) (alpha : num) : HslaColor num :=
  {| h := h color; s := s color; l := l color; a := alpha |}.

(* ================================================================== *)
(** * 4. Objects, exceptions and the window                               *)
(* ================================================================== *)

(** An object is the list of its own enumerable properties in enumeration
    order; a property whose value is [undefined] is present with [None].
    Reading finds the first entry of a key.  (An engine enumerates
    integer-like keys first, in ascending order; the objects built below
    receive the shade keys in that order, so for them writing order and
    enumeration order agree.  For other keys only lookups and membership are
    stated, never the order.) *)
Definition JsObject (V : Type) : Type := list (string * option V).

Module Obj.
Section WithValue.
Context {V : Type}.

Fixpoint lookup (key : string) (o : JsObject V) : option (option V) :=
  match o with
  | [] => None
  | (k, v) :: rest => if String.eqb k key then Some v else lookup key rest
  end.

(** [key in o] *)
Definition has (key : string) (o : JsObject V) : bool :=
  match lookup key o with
  | Some _ => true
  | None => false
  end.

(** [o[key]]: [undefined] when the key is absent. *)
Definition get (key : string) (o : JsObject V) : option V :=
  match lookup key o with
  | Some v => v
  | None => None
  end.

(** [o[key] = v]: an existing property keeps its place, a new one goes last. *)
Fixpoint set (key : string) (v : option V) (o : JsObject V) : JsObject V :=
  match o with
  | [] => [(key, v)]
  | (k, w) :: rest =>
      if String.eqb k key then (k, v) :: rest else (k, w) :: set key v rest
  end.

(** [Object.keys(o)] *)
Definition keys (o : JsObject V) : list string := map fst o.

(** [Object.fromEntries(entries)] *)
Definition fromEntries (entries : list (string * option V)) : JsObject V :=
  fold_left (fun acc e => set (fst e) (snd e) acc) entries [].

(** [{ ...o1, ...o2 }] *)
Definition spread (o1 o2 : JsObject V) : JsObject V :=
  fold_left (fun acc e => set (fst e) (snd e) acc) (o1 ++ o2)%list [].

(** The entry that a sequence of writes leaves under [key]: the last one. *)
Fixpoint lastEntry (key : string) (entries : list (string * option V))
    : option (option V) :=
  match entries with
  | [] => None
  | e :: rest =>
      match lastEntry key rest with
      | Some v => Some v
      | None => if String.eqb (fst e) key then Some (snd e) else None
      end
  end.
End WithValue.
End Obj.

(** [arr.forEach((x, i) => ...)] and [arr.map((x, i) => ...)] pair every
    element with its index. *)
Definition indexed {A : Type} (xs : list A) : list (nat * A) :=
  combine (seq 0 (length xs)) xs.

(** A computation either returns or throws [new Error(message)]. *)
Inductive Result (A : Type) : Type :=
| Ok (value : A)
| Throw (message : string).

Arguments Ok {A} _.
Arguments Throw {A} _.

Definition bind {A B : Type} (m : Result A) (f : A -> Result B) : Result B :=
  match m with
  | Ok x => f x
  | Throw msg => Throw msg
  end.

Notation "x <- m ;; k" := (bind m (fun x => k))
  (at level 61, m at next level, right associativity).
Notation "' pat <- m ;; k" := (bind m (fun x => match x with pat => k end))
  (at level 61, pat pattern, m at next level, right associativity).

(** [xs.map(f)] where [f] may throw: the first exception, in array order, wins. *)
Fixpoint mapM {A B : Type} (f : A -> Result B) (xs : list A) : Result (list B) :=
  match xs with
  | [] => Ok []
  | x :: rest =>
      y <- f x ;;
      ys <- mapM f rest ;;
      Ok (y :: ys)
  end.

(** What can arrive as [colorOption]: [undefined], a colour string or a
    (partial) scale object; [null] is kept for the falsy guard. *)
Inductive ColorOption : Type :=
| Undefined
| Null
| Str (color : string)
| Obj (scale : JsObject string).

(** [v || w] for values that are objects or [undefined]. *)
Definition orElse {T : Type} (v w : option T) : option T :=
  match v with
  | Some _ => v
  | None => w
  end.

(** [!!colorOption] *)
Definition truthy (colorOption : ColorOption) : bool :=
  match colorOption with
  | Undefined => false
  | Null => false
  | Str color => Js.truthyString color
  | Obj _ => true
  end.

(** Truthiness of a property value that is a string or [undefined]. *)
Definition truthyProp (v : option string) : bool :=
  match v with
  | Some str => Js.truthyString str
  | None => false
  end.

(** [`${value}`] for a value that arrives where a string is expected.  Scale
    objects are plain records, so they print as ["[object Object]"]. *)
Definition toStringValue (value : ColorOption) : string :=
  match value with
  | Undefined => "undefined"
  | Null => "null"
  | Str color => color
  | Obj _ => "[object Object]"
  end.

Module Window.
(** [window.ClerkCSSSupport], with its optional [colorMix] flag. *)
Record Support : Type := { colorMix : option bool }.
Record t : Type := { ClerkCSSSupport : option Support }.
End Window.

(** [isColorMixSupported()]: [cssSupports] is what
    [CSS.supports('color', 'color-mix(in srgb, red, blue)')] answers when it is
    asked; the answer is cached on the window. *)
Definition isColorMixSupported (cssSupports : bool) (w : Window.t) : bool * Window.t :=
  let support :=
    match Window.ClerkCSSSupport w with
    | Some sup => sup
    | None => {| Window.colorMix := None |}
    end in
  match Window.colorMix support with
  | None =>
      (cssSupports,
       {| Window.ClerkCSSSupport := Some {| Window.colorMix := Some cssSupports |} |})
  | Some cached => (cached, {| Window.ClerkCSSSupport := Some support |})
  end.

(* ================================================================== *)
(** * 5. The shade ladder                                                *)
(* ================================================================== *)

Definition LIGHT_SHADES : list string :=
  rev ["25"; "50"; "100"; "150"; "200"; "300"; "400"].
Definition DARK_SHADES : list string :=
  ["600"; "700"; "750"; "800"; "850"; "900"; "950"].

Definition ALL_SHADES : list string :=
  (rev LIGHT_SHADES ++ ["500"] ++ DARK_SHADES)%list.

Definition TARGET_L_50_SHADE : Z := 97.
Definition TARGET_L_900_SHADE : Z := 12.

(** A map of alpha shades to percentages. *)
Definition ALPHA_SHADES_MAP : JsObject Percentage :=
  [ ("25", Some "2%"); ("50", Some "3%"); ("100", Some "7%"); ("150", Some "11%");
    ("200", Some "15%"); ("300", Some "28%"); ("400", Some "41%"); ("500", Some "53%");
    ("600", Some "62%"); ("700", Some "73%"); ("750", Some "78%"); ("800", Some "81%");
    ("850", Some "84%"); ("900", Some "87%"); ("950", Some "92%") ].

Definition createEmptyColorScale {T : Type} : JsObject T :=
  [ ("25", None); ("50", None); ("100", None); ("150", None); ("200", None);
    ("300", None); ("400", None); ("500", None); ("600", None); ("700", None);
    ("750", None); ("800", None); ("850", None); ("900", None); ("950", None) ].

Inductive ShadeType : Type := lightenT | darkenT | baseT.

Record ShadeDefinition : Type := {
  type : ShadeType;
  amount : Percentage
}.

Definition LIGHTNESS_SHADES_DEF : list (string * ShadeDefinition) :=
  [ ("25", {| type := lightenT; amount := "92%" |});
    ("50", {| type := lightenT; amount := "85%" |});
    ("100", {| type := lightenT; amount := "70%" |});
    ("150", {| type := lightenT; amount := "55%" |});
    ("200", {| type := lightenT; amount := "40%" |});
    ("300", {| type := lightenT; amount := "25%" |});
    ("400", {| type := lightenT; amount := "10%" |});
    ("500", {| type := baseT; amount := "0%" |});
    ("600", {| type := darkenT; amount := "10%" |});
    ("700", {| type := darkenT; amount := "25%" |});
    ("750", {| type := darkenT; amount := "40%" |});
    ("800", {| type := darkenT; amount := "55%" |});
    ("850", {| type := darkenT; amount := "70%" |});
    ("900", {| type := darkenT; amount := "85%" |});
    ("950", {| type := darkenT; amount := "92%" |}) ].

Definition ALL_LIGHTNESS_SHADE_KEYS : list string := map fst LIGHTNESS_SHADES_DEF.

(* ================================================================== *)
(** * 6. The colour-mix generators                                       *)
(* ================================================================== *)

(** A prefixed scale: the flat mapping every successful path returns. *)
Definition PrefixedScale : Type := JsObject string.

(** The parameter is typed [string], but the alpha entry point hands its
    option over unchecked ([colorOption as string]); the template literal in
    [transparentize] is where a value that is not a string gets converted. *)
Definition createAlphaScaleWithTransparentize (baseColor : ColorOption) (prefix : string)
    : PrefixedScale :=
  Obj.fromEntries
    (map (fun e : string * option Percentage =>
            (prefix ++ fst e,
             option_map (transparentize (toStringValue baseColor)) (snd e)))
         ALPHA_SHADES_MAP).

Definition missingBaseMessage (prefix : string) : string :=
  "Color scale generation for prefix '" ++ prefix
  ++ "' failed: The '500' shade is required in the colorOption object.".

(** The loop that collects the truthy shades of the option object. *)
Definition collectUserProvidedShades (colorOption : JsObject string) : JsObject string :=
  fold_left
    (fun userProvidedShades key =>
       if truthyProp (Obj.get key colorOption)
       then Obj.set key (Obj.get key colorOption) userProvidedShades
       else userProvidedShades)
    ALL_LIGHTNESS_SHADE_KEYS [].

(** The loop over the definition table ([console.log] leaves no trace here). *)
Definition generateColorMixScale (baseFor500 : string) : JsObject string :=
  fold_left
    (fun generatedScale entry =>
       let shadeKey := fst entry in
       let definition := snd entry in
       match type definition with
       | baseT => Obj.set shadeKey (Some baseFor500) generatedScale
       | lightenT =>
           Obj.set shadeKey (Some (lighten baseFor500 (amount definition))) generatedScale
       | darkenT =>
           Obj.set shadeKey (Some (darken baseFor500 (amount definition))) generatedScale
       end)
    LIGHTNESS_SHADES_DEF [].

(** The final loop: truthy entries of the merged scale, under prefixed keys. *)
Definition prefixMergedScale (mergedScale : JsObject string) (prefix : string)
    : PrefixedScale :=
  fold_left
    (fun resultScale key =>
       if truthyProp (Obj.get key mergedScale)
       then Obj.set (prefix ++ key) (Obj.get key mergedScale) resultScale
       else resultScale)
    ALL_LIGHTNESS_SHADE_KEYS [].

Definition createColorMixLightnessScale (colorOption : ColorOption) (prefix : string)
    : Result (option PrefixedScale) :=
  if negb (truthy colorOption) then Ok None
  else
    match colorOption with
    | Str color =>
        let generatedScale := generateColorMixScale color in
        let mergedScale := Obj.spread generatedScale [] in
        Ok (Some (prefixMergedScale mergedScale prefix))
    | Obj scale =>
        match Obj.get "500" scale with
        | Some baseFor500 =>
            if negb (Js.truthyString baseFor500) then Throw (missingBaseMessage prefix)
            else
              let userProvidedShades := collectUserProvidedShades scale in
              let generatedScale := generateColorMixScale baseFor500 in
              let mergedScale := Obj.spread generatedScale userProvidedShades in
              Ok (Some (prefixMergedScale mergedScale prefix))
        | None => Throw (missingBaseMessage prefix)
        end
    | Undefined | Null => Ok None
    end.

(* ================================================================== *)
(** * 7. The HSLA generators                                             *)
(* ================================================================== *)

(** A scale of HSLA colours: an object whose values are colours or
    [undefined]. *)
Definition HslaScale (num : Type) : Type := JsObject (HslaColor num).

Section Generators.
Context {num : Type} `{JsNumber num}.

(** This function generates a colour scale using [base] as the 500 shade. *)
Definition generateFilledScaleFromBaseHslaColor (base : HslaColor num) : HslaScale num :=
  let newScale := Obj.set "500" (Some base) createEmptyColorScale in
  let lightPercentage :=
    ndiv (nsub (ofZ TARGET_L_50_SHADE) (l base)) (ofZ (Z.of_nat (length LIGHT_SHADES))) in
  let darkPercentage :=
    ndiv (nsub (l base) (ofZ TARGET_L_900_SHADE)) (ofZ (Z.of_nat (length DARK_SHADES))) in
  let newScale :=
    fold_left
      (fun scale ix =>
         Obj.set (snd ix)
           (Some (changeHslaLightness base
                    (nmul (ofZ (Z.of_nat (fst ix) + 1)) lightPercentage)))
           scale)
      (indexed LIGHT_SHADES) newScale in
  fold_left
    (fun scale ix =>
       Obj.set (snd ix)
         (Some (changeHslaLightness base
                  (nmul (nmul (ofZ (Z.of_nat (fst ix) + 1)) darkPercentage) (ofZ (-1)))))
         scale)
    (indexed DARK_SHADES) newScale.

Definition alphas : list num :=
  map hundredths [2; 3; 7; 11; 15; 28; 41; 53; 62; 73; 78; 81; 84; 87; 92].

(** [alphas[i]] is read below the table's length only: the fresh scale has
    as many keys as the table has entries. *)
Definition generateFilledAlphaScaleFromBaseHslaColor (base : HslaColor num) : HslaScale num :=
  let newScale : HslaScale num := createEmptyColorScale in
  let baseWithoutAlpha := setHslaAlpha base (ofZ 0) in
  fold_left
    (fun scale ik =>
       Obj.set (snd ik) (Some (setHslaAlpha baseWithoutAlpha (nth (fst ik) alphas (ofZ 0))))
         scale)
    (indexed (Obj.keys newScale)) newScale.
End Generators.

Section Scales.
Context {num : Type}.

(** The colour parser and printer of [./colors], which is not among the
    sources: [toHslaColor] may throw on what it cannot parse (it is also
    handed [undefined] property values), [toHslaString] is total. *)
Variable toHslaColor : option string -> Result (HslaColor num).
Variable toHslaString : HslaColor num -> HslaColorString.

Definition prefixAndStringifyHslaScale (scale : HslaScale num) (prefix : string)
    : PrefixedScale :=
  fold_left
    (fun res key =>
       match Obj.get key scale with
       | Some color => Obj.set (prefix ++ key) (Some (toHslaString color)) res
       | None => res
       end)
    (Obj.keys scale) [].

(** Modelled from the spec: the helper [fromEntries] of [./fromEntries] is
    not among the sources; it builds an object from key/value entries, as
    [Object.fromEntries] does ("for every shade key take the user-supplied
    value if present else the generated value"). *)
Definition fromEntries {V : Type} (entries : list (string * option V)) : JsObject V :=
  Obj.fromEntries entries.

Definition mergeFilledIntoUserDefinedScale (generated userDefined : HslaScale num)
    : HslaScale num :=
  fromEntries
    (map (fun e : string * option (HslaColor num) =>
            (fst e, orElse (snd e) (Obj.get (fst e) generated)))
         userDefined).

Definition typeErrorMessage : string :=
  "TypeError: Cannot read properties of undefined".

(** The entries [[k, baseScale[k] ? toHslaColor(baseScale[k]) : undefined]],
    one per key of a fresh empty scale. *)
Definition hslaEntries (baseScale : JsObject string)
    : Result (list (string * option (HslaColor num))) :=
  let hslaScale : HslaScale num := createEmptyColorScale in
  mapM (fun k =>
          if truthyProp (Obj.get k baseScale)
          then color <- toHslaColor (Obj.get k baseScale) ;; Ok (k, Some color)
          else Ok (k, None))
       (Obj.keys hslaScale).

Definition userDefinedColorToHslaColorScale (colorOption : ColorOption)
    : Result (HslaScale num) :=
  baseScale <-
    match colorOption with
    | Str color => Ok [("500", Some color)]
    | Obj scale => Ok scale
    | Undefined | Null => Throw typeErrorMessage
    end ;;
  entries <- hslaEntries baseScale ;;
  Ok (fromEntries entries).

Definition allShadesMessage : string :=
  "You need to provide all the following shades: " ++ Js.join ", " ALL_SHADES.

Definition getUserProvidedScaleOrGenerateHslaColorsScale
    (colorOption : ColorOption) (prefix : string)
    (generator : HslaColor num -> HslaScale num) : Result (option PrefixedScale) :=
  if negb (truthy colorOption) then Ok None
  else
    match colorOption with
    | Obj option =>
        if negb (forallb (fun key => Obj.has key option) ALL_SHADES)
        then Throw allShadesMessage
        else
          scale <-
            fold_left
              (fun acc key =>
                 acc' <- acc ;;
                 color <- toHslaColor (Obj.get key option) ;;
                 Ok (Obj.set key (Some color) acc'))
              (Obj.keys option) (Ok createEmptyColorScale) ;;
          Ok (Some (prefixAndStringifyHslaScale scale prefix))
    | Str color =>
        hslaColor <- toHslaColor (Some color) ;;
        let filledHslaColorScale := generator hslaColor in
        Ok (Some (prefixAndStringifyHslaScale filledHslaColorScale prefix))
    | Undefined | Null => Ok None
    end.

Definition baseShadeMessage : string := "You need to provide at least the 500 shade".

Definition fillUserProvidedScaleWithGeneratedHslaColors
    (colorOption : ColorOption) (prefix : string)
    (generator : HslaColor num -> HslaScale num) : Result (option PrefixedScale) :=
  if negb (truthy colorOption) then Ok None
  else
    let missingBase :=
      match colorOption with
      | Obj scale => negb (truthyProp (Obj.get "500" scale))
      | _ => false
      end in
    if missingBase then Throw baseShadeMessage
    else
      userDefinedHslaColorScale <- userDefinedColorToHslaColorScale colorOption ;;
      base <-
        match Obj.get "500" userDefinedHslaColorScale with
        | Some base => Ok base
        | None => Throw typeErrorMessage
        end ;;
      let filledHslaColorScale := generator base in
      let merged := mergeFilledIntoUserDefinedScale filledHslaColorScale
                      userDefinedHslaColorScale in
      Ok (Some (prefixAndStringifyHslaScale merged prefix)).
End Scales.

Section EntryPoints.
Context {num : Type} `{JsNumber num}.
Variable toHslaColor : option string -> Result (HslaColor num).
Variable toHslaString : HslaColor num -> HslaColorString.

Definition colorOptionToHslaAlphaScale (colorOption : ColorOption) (prefix : string)
    : Result (option PrefixedScale) :=
  getUserProvidedScaleOrGenerateHslaColorsScale toHslaColor toHslaString
    colorOption prefix generateFilledAlphaScaleFromBaseHslaColor.

Definition colorOptionToHslaLightnessScale (colorOption : ColorOption) (prefix : string)
    : Result (option PrefixedScale) :=
  fillUserProvidedScaleWithGeneratedHslaColors toHslaColor toHslaString
    colorOption prefix generateFilledScaleFromBaseHslaColor.

(** The entry points run against a window [w]; [cssSupports] is the answer
    of the CSS capability query should the probe have to ask. *)
Definition colorOptionToAlphaScale (colorOption : ColorOption) (prefix : string)
    (cssSupports : bool) (w : Window.t) : Result (option PrefixedScale) * Window.t :=
  if negb (truthy colorOption) then (Ok None, w)
  else
    let '(supported, w') := isColorMixSupported cssSupports w in
    if supported
    then (Ok (Some (createAlphaScaleWithTransparentize colorOption prefix)), w')
    else (colorOptionToHslaAlphaScale colorOption prefix, w').

Definition colorOptionToLightnessScale (colorOption : ColorOption) (prefix : string)
    (cssSupports : bool) (w : Window.t) : Result (option PrefixedScale) * Window.t :=
  if negb (truthy colorOption) then (Ok None, w)
  else
    let '(supported, w') := isColorMixSupported cssSupports w in
    if supported
    then (createColorMixLightnessScale colorOption prefix, w')
    else (colorOptionToHslaLightnessScale colorOption prefix, w').
End EntryPoints.

(* ================================================================== *)
(** * 8. Reading a scale                                                 *)
(* ================================================================== *)

(** The lightness (resp. alpha) of the colours of a scale, in shade order
    25, 50, ..., 950. *)
Definition lightnessRamp {num : Type} (scale : HslaScale num) : list num :=
  flat_map (fun key => match Obj.get key scale with
                       | Some color => [l color]
                       | None => []
                       end) ALL_SHADES.

Definition alphaRamp {num : Type} (scale : HslaScale num) : list num :=
  flat_map (fun key => match Obj.get key scale with
                       | Some color => [a color]
                       | None => []
                       end) ALL_SHADES.

Fixpoint nonIncreasing (xs : list Q) : Prop :=
  match xs with
  | x :: (y :: _) as rest => (y <= x)%Q /\ nonIncreasing rest
  | _ => True
  end.

Fixpoint nonDecreasing (xs : list Q) : Prop :=
  match xs with
  | x :: (y :: _) as rest => (x <= y)%Q /\ nonDecreasing rest
  | _ => True
  end.

(** The lightness of the two extreme shades, 25 and 950, of the generated
    scale. *)
Definition extremeLightness {num : Type} `{JsNumber num} (base : HslaColor num)
    : option num * option num :=
  let scale := generateFilledScaleFromBaseHslaColor base in
  (option_map l (Obj.get "25" scale), option_map l (Obj.get "950" scale)).

(** In binary64, for the base lightness [k/100]: both extreme shades lie
    within [tolerance] of the anchors 97 and 12. *)
Definition nearAnchors64 (tolerance : PrimFloat.float) (k : Z) : bool :=
  let base :=
    mkHslaColor PrimFloat.zero PrimFloat.zero (hundredths k) PrimFloat.one in
  match extremeLightness base with
  | (Some lightest, Some darkest) =>
      PrimFloat.leb (PrimFloat.abs (PrimFloat.sub lightest (floatOfZ 97))) tolerance
      && PrimFloat.leb (PrimFloat.abs (PrimFloat.sub darkest (floatOfZ 12))) tolerance
  | _ => false
  end.

(** The colours of a scale, in shade order. *)
Definition scaleColors {num : Type} (scale : HslaScale num) : list (HslaColor num) :=
  flat_map (fun key => match Obj.get key scale with
                       | Some color => [color]
                       | None => []
                       end) ALL_SHADES.

(** What the parser makes of the shade [key] of an option object: nothing when
    the entry is falsy (it is not parsed) or when the parser throws. *)
Definition parsedShade {num : Type} (toHslaColor : option string -> Result (HslaColor num))
    (baseScale : JsObject string) (key : string) : option (HslaColor num) :=
  if truthyProp (Obj.get key baseScale)
  then match toHslaColor (Obj.get key baseScale) with
       | Ok color => Some color
       | Throw _ => None
       end
  else None.

(** The parser accepts every truthy shade of an option object. *)
Definition parsesAll {num : Type} (toHslaColor : option string -> Result (HslaColor num))
    (baseScale : JsObject string) : Prop :=
  forall key, In key ALL_SHADES -> truthyProp (Obj.get key baseScale) = true ->
              exists color, toHslaColor (Obj.get key baseScale) = Ok color.

(** The entries of a prefixed scale whose shades are the colours [shades], in
    shade order. *)
Definition prefixedEntries {num : Type} (toHslaString : HslaColor num -> HslaColorString)
    (prefix : string) (shades : list (HslaColor num)) : PrefixedScale :=
  combine (map (append prefix) ALL_SHADES)
          (map (fun color => Some (toHslaString color)) shades).

(* ================================================================== *)
(** * 9. A sample collaborator                                           *)
(* ================================================================== *)

(** A stand-in for the colour parser and printer of [./colors] over exact
    rationals, used to run the entry points on concrete inputs.  It knows a
    few named colours and throws on anything else. *)
Module Sample.
Definition toHslaColor (v : option string) : Result (HslaColor Q) :=
  match v with
  | Some name =>
      if String.eqb name "white" then Ok (mkHslaColor 0%Q 0%Q 100%Q 1%Q)
      else if String.eqb name "black" then Ok (mkHslaColor 0%Q 0%Q 0%Q 1%Q)
      else if String.eqb name "red" then Ok (mkHslaColor 0%Q 100%Q 50%Q 1%Q)
      else if String.eqb name "navy" then Ok (mkHslaColor 240%Q 100%Q 25%Q 1%Q)
      else Throw ("Cannot parse color: " ++ name)
  | None => Throw "Cannot parse color: undefined"
  end.

Definition showQ (q : Q) : string :=
  Js.intToString (Qnum q) ++ "/" ++ Js.intToString (Zpos (Qden q)).

Definition toHslaString (color : HslaColor Q) : HslaColorString :=
  "hsla(" ++ showQ (h color) ++ ", " ++ showQ (s color) ++ "%, "
  ++ showQ (l color) ++ "%, " ++ showQ (a color) ++ ")".

(** A fresh window: the probe has not run yet. *)
Definition freshWindow : Window.t := {| Window.ClerkCSSSupport := None |}.
End Sample.

(* ================================================================== *)
(** * The Vue plugin: the listener on Clerk's resources                  *)
(* ================================================================== *)

Module Plugin.
Section WithResources.
Context {Client Session User Organization : Type}.

(** The payload Clerk hands to its listeners (the type [Resources] comes from
    [@clerk/types]; its four fields are the ones the plugin initialises).  A
    field is [None] when it is [undefined] and [Some] for any other value,
    [null] included: that is all [=== undefined] tells apart. *)
Record Resources : Type := {
  client : option Client;
  session : option Session;
  user : option User;
  organization : option Organization
}.

(** The initial value of the [resources] ref. *)
Definition initialResources : Resources :=
  {| client := None; session := None; user := None; organization := None |}.

Definition isUndefined {A : Type} (v : option A) : bool :=
  match v with
  | None => true
  | Some _ => false
  end.

Definition isTemporaryClearedState (resources : Resources) : bool :=
  isUndefined (user resources) && isUndefined (organization resources)
  && isUndefined (session resources).

(** The listener registered with [addListener], as a step on [resources.value]:
    a payload in the cleared state is dropped, any other payload is stored. *)
Definition listener (current payload : Resources) : Resources :=
  if isTemporaryClearedState payload then current else payload.

(** [resources.value] after Clerk has emitted [payloads], oldest first. *)
Definition afterEmissions (payloads : list Resources) : Resources :=
  fold_left listener payloads initialResources.
End WithResources.

Arguments Resources : clear implicits.
End Plugin.

(* ================================================================== *)
(** * 10. Properties of objects and strings                               *)
(* ================================================================== *)

Section StringFacts.

Lemma append_assoc3 (x y z : string) : ((x ++ y) ++ z = x ++ (y ++ z))%string.
Proof.
  induction x as [| c x IH]; simpl; [reflexivity | now rewrite IH].
Qed.

Lemma append_inj_l (p x y : string) : (p ++ x = p ++ y)%string -> x = y.
Proof.
  induction p as [| c p IH]; simpl; intros E; [exact E |].
  injection E as E. now apply IH.
Qed.

Lemma eqb_append_l (p x y : string) :
  String.eqb (p ++ x) (p ++ y) = String.eqb x y.
Proof.
  destruct (String.eqb_spec x y) as [-> | N].
  - apply String.eqb_refl.
  - apply String.eqb_neq. intros E. apply N. eapply append_inj_l; eauto.
Qed.

Lemma truthy_nonempty (str : string) : Js.truthyString str = true <-> str <> "".
Proof.
  destruct str; simpl; split; intros; congruence.
Qed.

End StringFacts.

Module ObjFacts.
Section WithValue.
Context {V : Type}.
Implicit Types (o : JsObject V) (k : string) (v : option V).

Lemma lookup_none_notin k o : Obj.lookup k o = None <-> ~ In k (Obj.keys o).
Proof.
  induction o as [| [k' w] o IH]; simpl.
  - tauto.
  - destruct (String.eqb_spec k' k) as [-> | N].
    + split; [discriminate | intros N; exfalso; apply N; now left].
    + rewrite IH. split.
      * intros H [E | I]; [congruence | tauto].
      * intros H I. apply H. now right.
Qed.

Lemma has_in k o : Obj.has k o = true <-> In k (Obj.keys o).
Proof.
  unfold Obj.has. destruct (Obj.lookup k o) eqn:E.
  - split; [intros _ | reflexivity].
    destruct (in_dec string_dec k (Obj.keys o)) as [I | N]; [exact I |].
    apply lookup_none_notin in N. congruence.
  - split; [discriminate |]. intros I. apply lookup_none_notin in E. tauto.
Qed.

Lemma lookup_set_same k v o : Obj.lookup k (Obj.set k v o) = Some v.
Proof.
  induction o as [| [k' w] o IH]; simpl.
  - now rewrite String.eqb_refl.
  - destruct (String.eqb k' k) eqn:E; simpl; rewrite E; [reflexivity | exact IH].
Qed.

Lemma lookup_set_other k k' v o :
  k <> k' -> Obj.lookup k' (Obj.set k v o) = Obj.lookup k' o.
Proof.
  intros N. induction o as [| [k0 w] o IH]; simpl.
  - apply String.eqb_neq in N. now rewrite N.
  - destruct (String.eqb_spec k0 k) as [-> | N0]; simpl.
    + apply String.eqb_neq in N. now rewrite N.
    + now rewrite IH.
Qed.

Lemma get_set_same k v o : Obj.get k (Obj.set k v o) = v.
Proof. unfold Obj.get. now rewrite lookup_set_same. Qed.

Lemma get_set_other k k' v o : k <> k' -> Obj.get k' (Obj.set k v o) = Obj.get k' o.
Proof. intros N. unfold Obj.get. now rewrite lookup_set_other. Qed.

Lemma keys_set_present k v o : In k (Obj.keys o) -> Obj.keys (Obj.set k v o) = Obj.keys o.
Proof.
  induction o as [| [k' w] o IH]; simpl; [tauto |].
  destruct (String.eqb_spec k' k) as [-> | N]; simpl; [reflexivity |].
  intros [E | I]; [congruence |]. now rewrite IH.
Qed.

Lemma set_fresh k v o : ~ In k (Obj.keys o) -> Obj.set k v o = (o ++ [(k, v)])%list.
Proof.
  induction o as [| [k' w] o IH]; simpl; [reflexivity |].
  intros N. destruct (String.eqb_spec k' k) as [-> | N0]; [tauto |].
  rewrite IH; [reflexivity | tauto].
Qed.

Lemma lookup_fold_set k (es : list (string * option V)) o :
  Obj.lookup k (fold_left (fun acc e => Obj.set (fst e) (snd e) acc) es o)
  = match Obj.lastEntry k es with
    | Some v => Some v
    | None => Obj.lookup k o
    end.
Proof.
  revert o. induction es as [| [k' w] es IH]; intros o; simpl; [reflexivity |].
  rewrite IH. destruct (Obj.lastEntry k es); [reflexivity |].
  destruct (String.eqb_spec k' k) as [-> | N].
  - apply lookup_set_same.
  - now apply lookup_set_other.
Qed.

(** A loop that writes [g x] under the key [f x] for the elements that pass
    [c], when the keys are pairwise distinct and new to the object. *)
Lemma fold_set_fresh {A : Type} (f : A -> string) (g : A -> option V)
      (c : A -> bool) (xs : list A) o :
  NoDup (map f xs) ->
  (forall x, In x xs -> ~ In (f x) (Obj.keys o)) ->
  fold_left (fun acc x => if c x then Obj.set (f x) (g x) acc else acc) xs o
  = (o ++ map (fun x => (f x, g x)) (filter c xs))%list.
Proof.
  revert o. induction xs as [| x xs IH]; intros o Hnd Hfresh; simpl.
  - now rewrite app_nil_r.
  - simpl in Hnd. inversion Hnd as [| ? ? Hx Hnd']; subst.
    destruct (c x) eqn:Ec.
    + rewrite IH; trivial.
      * rewrite set_fresh by (apply Hfresh; now left).
        simpl. now rewrite <- app_assoc.
      * intros y Hy. rewrite set_fresh by (apply Hfresh; now left).
        unfold Obj.keys. rewrite map_app, in_app_iff. simpl.
        intros [I | [E | []]].
        -- apply (Hfresh y); [now right | exact I].
        -- apply Hx. rewrite E. now apply in_map.
    + apply IH; trivial. intros y Hy. apply Hfresh. now right.
Qed.

Lemma fromEntries_distinct (es : list (string * option V)) :
  NoDup (map fst es) -> Obj.fromEntries es = es.
Proof.
  intros Hnd. unfold Obj.fromEntries.
  change (fold_left (fun acc e => if (fun _ : string * option V => true) e
                                  then Obj.set (fst e) (snd e) acc else acc) es [] = es).
  rewrite fold_set_fresh by (trivial; intros ? _ []).
  simpl. induction es as [| [k v] es IH]; simpl; [reflexivity |].
  inversion Hnd; subst. now rewrite IH.
Qed.

Lemma lookup_map_inj {A : Type} (F : A -> string) (W : A -> option V)
      (xs : list A) (x : A) :
  (forall y, In y xs -> F y = F x -> y = x) ->
  In x xs ->
  Obj.lookup (F x) (map (fun y => (F y, W y)) xs) = Some (W x).
Proof.
  induction xs as [| y xs IH]; simpl; [tauto |].
  intros Hinj Hin. destruct (String.eqb_spec (F y) (F x)) as [E | N].
  - now rewrite (Hinj y (or_introl eq_refl) E).
  - destruct Hin as [-> | Hin]; [congruence |]. apply IH; auto.
Qed.

Lemma lookup_map_self (W : string -> option V) (ks : list string) (k : string) :
  In k ks -> Obj.lookup k (map (fun y => (y, W y)) ks) = Some (W k).
Proof.
  intros Hin. apply (lookup_map_inj (fun y => y) W ks k); auto.
Qed.

Lemma lookup_map_prefixed (prefix : string) (W : string -> option V)
      (ks : list string) (k : string) :
  In k ks ->
  Obj.lookup (prefix ++ k) (map (fun y => (prefix ++ y, W y)) ks) = Some (W k).
Proof.
  intros Hin. apply (lookup_map_inj (append prefix) W ks k); auto.
  intros y _ E. now apply append_inj_l in E.
Qed.

Lemma lastEntry_app (k : string) (es1 es2 : list (string * option V)) :
  Obj.lastEntry k (es1 ++ es2)
  = match Obj.lastEntry k es2 with
    | Some v => Some v
    | None => Obj.lastEntry k es1
    end.
Proof.
  induction es1 as [| e es1 IH]; simpl.
  - now destruct (Obj.lastEntry k es2).
  - rewrite IH. now destruct (Obj.lastEntry k es2).
Qed.

Lemma lastEntry_distinct (k : string) (es : list (string * option V)) :
  NoDup (map fst es) -> Obj.lastEntry k es = Obj.lookup k es.
Proof.
  induction es as [| [k' v] es IH]; simpl; intros Hnd; [reflexivity |].
  inversion Hnd as [| ? ? Hk Hnd']; subst. rewrite IH by exact Hnd'.
  destruct (String.eqb_spec k' k) as [-> | N]; [| now destruct (Obj.lookup k es)].
  apply lookup_none_notin in Hk. now rewrite Hk.
Qed.

(** Reading a spread: the second object wins where it has the key. *)
Lemma get_spread (k : string) (o1 o2 : JsObject V) :
  NoDup (Obj.keys o1) -> NoDup (Obj.keys o2) ->
  Obj.get k (Obj.spread o1 o2)
  = match Obj.lookup k o2 with
    | Some v => v
    | None => Obj.get k o1
    end.
Proof.
  intros H1 H2. unfold Obj.get, Obj.spread.
  rewrite lookup_fold_set, lastEntry_app, !lastEntry_distinct by assumption.
  destruct (Obj.lookup k o2); [reflexivity |].
  now destruct (Obj.lookup k o1).
Qed.

End WithValue.
End ObjFacts.

(* ================================================================== *)
(** * 11. The colour-mix primitives                                      *)
(* ================================================================== *)

Section ParseIntFacts.
Import Decimal.

Ltac step_digit :=
  cbn [Js.digitsValue];
  match goal with
  | |- context [Js.digitValue ?c] =>
      let v := eval vm_compute in (Js.digitValue c) in
      change (Js.digitValue c) with v
  end;
  cbn [Z.ltb Z.compare Pos.compare Pos.compare_cont]; cbv iota.

Lemma digitsValue_uint_acc (d : uint) : forall (acc : positive) (rest : string),
  Js.digitsValue 10 (NilEmpty.string_of_uint d ++ rest) (Zpos acc)
  = Js.digitsValue 10 rest (Zpos (Pos.of_uint_acc d acc)).
Proof.
  induction d; intros acc rest; cbn [NilEmpty.string_of_uint append Pos.of_uint_acc];
    [reflexivity | ..];
    step_digit; rewrite <- IHd; f_equal; lia.
Qed.

Lemma digitsValue_uint (d : uint) : forall rest : string,
  Js.digitsValue 10 (NilEmpty.string_of_uint d ++ rest) 0
  = Js.digitsValue 10 rest (Z.of_N (Pos.of_uint d)).
Proof.
  induction d; intros rest; cbn [NilEmpty.string_of_uint append Pos.of_uint];
    [reflexivity | ..];
    step_digit;
    [ apply IHd | cbn [Z.mul Z.add Z.of_N]; apply digitsValue_uint_acc .. ].
Qed.

(** [parseInt] reads a decimal numeral followed by [%], with or without a
    minus sign. *)
Lemma parseInt_uint (d : uint) : d <> Nil ->
  Js.parseInt (NilEmpty.string_of_uint d ++ "%") = Some (Z.of_N (Pos.of_uint d))
  /\ Js.parseInt (String "-" (NilEmpty.string_of_uint d ++ "%"))
     = Some (- Z.of_N (Pos.of_uint d)).
Proof.
  intros Hd.
  assert (E : Js.parseInt (NilEmpty.string_of_uint d ++ "%")
              = Some (1 * Js.digitsValue 10 (NilEmpty.string_of_uint d ++ "%") 0)
            /\ Js.parseInt (String "-" (NilEmpty.string_of_uint d ++ "%"))
              = Some (-1 * Js.digitsValue 10 (NilEmpty.string_of_uint d ++ "%") 0)).
  { destruct d as [| t | t | t | t | t | t | t | t | t | t]; [congruence | ..];
      destruct t; split; reflexivity. }
  destruct E as [E1 E2]. rewrite E1, E2, digitsValue_uint.
  cbn [Js.digitsValue]. change (Js.digitValue "%") with (@None Z). cbv iota.
  split; f_equal; lia.
Qed.

Lemma string_of_uint_nonnil (d : uint) :
  d <> Nil -> NilZero.string_of_uint d = NilEmpty.string_of_uint d.
Proof. destruct d; simpl; congruence. Qed.

(** Printing an integer and reading it back as a percentage. *)
Lemma parseInt_intToString (z : Z) : Js.parseInt (Js.intToString z ++ "%") = Some z.
Proof.
  unfold Js.intToString. destruct z as [| p | p].
  - reflexivity.
  - cbn [Z.to_int NilZero.string_of_int].
    pose proof (DecimalPos.Unsigned.to_uint_nonnil p) as Hn.
    rewrite string_of_uint_nonnil by exact Hn.
    rewrite (proj1 (parseInt_uint _ Hn)), DecimalPos.Unsigned.of_to. reflexivity.
  - cbn [Z.to_int NilZero.string_of_int].
    pose proof (DecimalPos.Unsigned.to_uint_nonnil p) as Hn.
    rewrite string_of_uint_nonnil by exact Hn.
    cbn [append].
    rewrite (proj2 (parseInt_uint _ Hn)), DecimalPos.Unsigned.of_to. reflexivity.
Qed.
End ParseIntFacts.

Lemma colorMix_first_operand (color weight second : string) :
  colorMix (color ++ " " ++ weight ++ "%") second
  = "color-mix(in oklch, " ++ color ++ " " ++ weight ++ "%, " ++ second ++ ")".
Proof.
  unfold colorMix. f_equal. rewrite !append_assoc3. reflexivity.
Qed.

Example darken_25 : darken "red" "25%" = "color-mix(in oklch, red 75%, black 10%)".
Proof. reflexivity. Qed.

Example darken_not_a_number : darken "red" "abc" = "color-mix(in oklch, red NaN%, black 10%)".
Proof. reflexivity. Qed.

Example lighten_25 : lighten "red" "25%" = "color-mix(in oklch, red 75%, white 25%)".
Proof. reflexivity. Qed.

(** C1.  For every percentage string the result of [darken] is a colour-mix
    expression whose second operand is the constant [black 10%], whatever the
    colour: the percentage reaches the weight of the first operand only.  For
    a percentage the model reads as the engine does, that weight is
    [100 - parseInt(percentage)]; for the decimal numeral of an integer [n]
    within the exact integers of binary64, followed by [%], it is [100 - n]. *)
Theorem darken_black_weight_fixed (color : string) (percentage : Percentage) :
  (exists weight : string,
     forall c : string,
       darken c percentage
       = "color-mix(in oklch, " ++ c ++ " " ++ weight ++ "%, black 10%)")
  /\ (Js.readsExactly percentage = true ->
      darken color percentage
      = "color-mix(in oklch, " ++ color ++ " "
        ++ Js.numberToString (Js.hundredMinus (Js.parseInt percentage))
        ++ "%, black 10%)")
  /\ (forall n : Z,
        Z.abs n <= Js.MAX_SAFE_INTEGER - 100 ->
        darken color (Js.intToString n ++ "%")
        = "color-mix(in oklch, " ++ color ++ " " ++ Js.intToString (100 - n)
          ++ "%, black 10%)").
Proof.
  split; [| split].
  - exists (Js.numberToString (Js.hundredMinus (Js.parseInt percentage))).
    intros c. unfold darken. now rewrite colorMix_first_operand.
  - intros _. unfold darken. now rewrite colorMix_first_operand.
  - intros n _. unfold darken. rewrite colorMix_first_operand, parseInt_intToString.
    reflexivity.
Qed.

Lemma darken_black_weight_witness :
  Js.readsExactly "25%" = true
  /\ Z.abs 25 <= Js.MAX_SAFE_INTEGER - 100
  /\ darken "red" "25%" = "color-mix(in oklch, red 75%, black 10%)".
Proof.
  split; [reflexivity |]. split; [intros E; discriminate E |].
  exact (proj1 (proj2 (darken_black_weight_fixed "red" "25%")) eq_refl).
Defined.

(* ================================================================== *)
(** * 12. Guards and failures of the entry points                        *)
(* ================================================================== *)

Lemma falsy_options (colorOption : ColorOption) :
  truthy colorOption = false
  <-> colorOption = Undefined \/ colorOption = Null \/ colorOption = Str "".
Proof.
  split.
  - destruct colorOption as [| | [| c color] | scale]; simpl; intros E;
      try discriminate; tauto.
  - intros [-> | [-> | ->]]; reflexivity.
Qed.

Lemma isColorMixSupported_cached (cssSupports : bool) (w : Window.t) :
  let '(answer, w') := isColorMixSupported cssSupports w in
  exists sup, Window.ClerkCSSSupport w' = Some sup /\ Window.colorMix sup = Some answer.
Proof.
  unfold isColorMixSupported.
  destruct (Window.ClerkCSSSupport w) as [[[cached |]] |]; simpl; eauto.
Qed.

Section Guards.
Context {num : Type} `{JsNumber num}.
Variable toHslaColor : option string -> Result (HslaColor num).
Variable toHslaString : HslaColor num -> HslaColorString.

Local Abbreviation alphaScale := (colorOptionToAlphaScale toHslaColor toHslaString).
Local Abbreviation lightnessScale := (colorOptionToLightnessScale toHslaColor toHslaString).

(** C10.  A falsy option (undefined, null or the empty string) makes both
    entry points return undefined: nothing is thrown, no scale is built,
    and the window is left as it was (the probe is not even asked).  The
    colour-mix lightness generator has the same guard. *)
Theorem falsy_option_is_not_customized
    (colorOption : ColorOption) (prefix : string) (cssSupports : bool) (w : Window.t) :
  truthy colorOption = false ->
  alphaScale colorOption prefix cssSupports w = (Ok None, w)
  /\ lightnessScale colorOption prefix cssSupports w = (Ok None, w)
  /\ createColorMixLightnessScale colorOption prefix = Ok None.
Proof.
  intros E. unfold colorOptionToAlphaScale, colorOptionToLightnessScale,
    createColorMixLightnessScale.
  rewrite E. simpl. auto.
Qed.

(** C4.  An option object without a truthy '500' entry makes the lightness
    entry point throw the missing-base error on either branch: the
    colour-mix generator names the prefix in its message, the HSLA path
    asks for "at least the 500 shade". *)
Theorem lightness_object_without_base_throws
    (scale : JsObject string) (prefix : string) (cssSupports : bool) (w : Window.t) :
  truthyProp (Obj.get "500" scale) = false ->
  fst (lightnessScale (Obj scale) prefix cssSupports w)
  = Throw (if fst (isColorMixSupported cssSupports w)
           then missingBaseMessage prefix
           else baseShadeMessage).
Proof.
  intros E. unfold colorOptionToLightnessScale. simpl.
  destruct (isColorMixSupported cssSupports w) as [[|] w']; simpl.
  - unfold createColorMixLightnessScale. simpl.
    unfold truthyProp in E. destruct (Obj.get "500" scale) as [base |]; [| reflexivity].
    now rewrite E.
  - unfold colorOptionToHslaLightnessScale, fillUserProvidedScaleWithGeneratedHslaColors.
    simpl. now rewrite E.
Qed.

(** On the HSLA branch an option object that lacks one of the fifteen shade
    keys is refused by the alpha path. *)
Lemma hsla_alpha_object_incomplete_throws (scale : JsObject string) (prefix : string) :
  forallb (fun key => Obj.has key scale) ALL_SHADES = false ->
  colorOptionToHslaAlphaScale toHslaColor toHslaString (Obj scale) prefix
  = Throw allShadesMessage.
Proof.
  intros E. unfold colorOptionToHslaAlphaScale,
    getUserProvidedScaleOrGenerateHslaColorsScale. cbn [truthy negb]. now rewrite E.
Qed.

(** On the colour-mix branch the alpha entry point never throws: whatever
    the option is, it is printed into the colour-mix expressions. *)
Lemma color_mix_alpha_never_throws
    (colorOption : ColorOption) (prefix : string) (cssSupports : bool) (w : Window.t) :
  truthy colorOption = true ->
  fst (isColorMixSupported cssSupports w) = true ->
  fst (alphaScale colorOption prefix cssSupports w)
  = Ok (Some (createAlphaScaleWithTransparentize colorOption prefix)).
Proof.
  intros E S. unfold colorOptionToAlphaScale. rewrite E. simpl.
  destruct (isColorMixSupported cssSupports w) as [supported w']. simpl in *.
  now rewrite S.
Qed.

(** C3, evaluated.  The object [{ '500': 'red' }] lacks fourteen shade keys.
    With colour-mix unsupported the alpha entry point throws "You need to
    provide all the following shades"; with colour-mix supported it throws
    nothing and returns fifteen expressions built from the text
    "[object Object]". *)
Theorem alpha_object_cast_on_color_mix_branch :
  let option := Obj [("500", Some "red")] in
  fst (alphaScale option "p" false Sample.freshWindow)
  = Throw ("You need to provide all the following shades: "
           ++ "25, 50, 100, 150, 200, 300, 400, 500, 600, 700, 750, 800, 850, 900, 950")
  /\ exists scale,
       fst (alphaScale option "p" true Sample.freshWindow) = Ok (Some scale)
       /\ Obj.keys scale
          = ["p25"; "p50"; "p100"; "p150"; "p200"; "p300"; "p400"; "p500";
             "p600"; "p700"; "p750"; "p800"; "p850"; "p900"; "p950"]
       /\ Obj.get "p25" scale
          = Some "color-mix(in oklch, [object Object] 2%, transparent)"
       /\ Obj.get "p500" scale
          = Some "color-mix(in oklch, [object Object] 53%, transparent)".
Proof.
  split; [reflexivity |]. eexists. split; [reflexivity |].
  repeat split; reflexivity.
Qed.
End Guards.

Lemma falsy_option_witness :
  truthy (Str "") = false
  /\ (colorOptionToAlphaScale Sample.toHslaColor Sample.toHslaString
        (Str "") "p" true Sample.freshWindow = (Ok None, Sample.freshWindow)
      /\ colorOptionToLightnessScale Sample.toHslaColor Sample.toHslaString
           (Str "") "p" true Sample.freshWindow = (Ok None, Sample.freshWindow)
      /\ createColorMixLightnessScale (Str "") "p" = Ok None).
Proof.
  split; [reflexivity |].
  apply (falsy_option_is_not_customized Sample.toHslaColor Sample.toHslaString
           (Str "") "p" true Sample.freshWindow).
  reflexivity.
Defined.

Lemma lightness_object_without_base_witness :
  truthyProp (Obj.get "500" [("700", Some "red")]) = false
  /\ fst (colorOptionToLightnessScale Sample.toHslaColor Sample.toHslaString
            (Obj [("700", Some "red")]) "p" false Sample.freshWindow)
     = Throw "You need to provide at least the 500 shade"
  /\ fst (colorOptionToLightnessScale Sample.toHslaColor Sample.toHslaString
            (Obj [("700", Some "red")]) "p" true Sample.freshWindow)
     = Throw "Color scale generation for prefix 'p' failed: The '500' shade is required in the colorOption object.".
Proof.
  split; [reflexivity |]. split.
  - apply (lightness_object_without_base_throws Sample.toHslaColor Sample.toHslaString
             [("700", Some "red")] "p" false Sample.freshWindow).
    reflexivity.
  - apply (lightness_object_without_base_throws Sample.toHslaColor Sample.toHslaString
             [("700", Some "red")] "p" true Sample.freshWindow).
    reflexivity.
Defined.

(* ================================================================== *)
(** * 13. Arithmetic of the HSLA generators                              *)
(* ================================================================== *)

Section GeneratorShape.
Context {num : Type} `{JsNumber num}.

(** The lightness generator, unrolled: seven steps up, the base, seven steps
    down. *)
Lemma generateFilledScale_closed_form (base : HslaColor num) :
  let lightPercentage := ndiv (nsub (ofZ 97) (l base)) (ofZ 7) in
  let darkPercentage := ndiv (nsub (l base) (ofZ 12)) (ofZ 7) in
  let lighter i := Some (changeHslaLightness base (nmul (ofZ i) lightPercentage)) in
  let darker i :=
    Some (changeHslaLightness base (nmul (nmul (ofZ i) darkPercentage) (ofZ (-1)))) in
  generateFilledScaleFromBaseHslaColor base
  = [ ("25", lighter 7); ("50", lighter 6); ("100", lighter 5); ("150", lighter 4);
      ("200", lighter 3); ("300", lighter 2); ("400", lighter 1); ("500", Some base);
      ("600", darker 1); ("700", darker 2); ("750", darker 3); ("800", darker 4);
      ("850", darker 5); ("900", darker 6); ("950", darker 7) ].
Proof. reflexivity. Qed.

(** The alpha generator, unrolled. *)
Lemma generateFilledAlphaScale_closed_form (base : HslaColor num) :
  generateFilledAlphaScaleFromBaseHslaColor base
  = combine ALL_SHADES
      (map (fun alpha => Some (mkHslaColor (h base) (s base) (l base) alpha)) alphas).
Proof. reflexivity. Qed.

Lemma generateFilledScale_keys (base : HslaColor num) :
  Obj.keys (generateFilledScaleFromBaseHslaColor base) = ALL_SHADES.
Proof. reflexivity. Qed.

Lemma generateFilledAlphaScale_keys (base : HslaColor num) :
  Obj.keys (generateFilledAlphaScaleFromBaseHslaColor base) = ALL_SHADES.
Proof. reflexivity. Qed.
End GeneratorShape.

Example LIGHT_SHADES_order : LIGHT_SHADES = ["400"; "300"; "200"; "150"; "100"; "50"; "25"].
Proof. reflexivity. Qed.

Example ALL_SHADES_order :
  ALL_SHADES = ["25"; "50"; "100"; "150"; "200"; "300"; "400"; "500";
                "600"; "700"; "750"; "800"; "850"; "900"; "950"].
Proof. reflexivity. Qed.

Section GeneratorArithmetic.
Import PrimFloat.
Local Open Scope Q_scope.

Ltac unroll_ramp :=
  cbv [lightnessRamp alphaRamp flat_map ALL_SHADES LIGHT_SHADES DARK_SHADES rev app
       Obj.get Obj.lookup String.eqb Ascii.eqb Bool.eqb nonIncreasing nonDecreasing
       changeHslaLightness setHslaAlpha l a nadd nmul nsub ndiv ofZ QNumber inject_Z].

Lemma seventh_cancels (x : Q) : 7 * (x / 7) == x.
Proof. field. Qed.


(** Over the rationals the seventh of seven steps reaches the anchor: the
    two extreme shades are 97 and 12 when no rounding occurs. *)
Lemma seventh_step_is_exact_over_rationals (base : HslaColor Q) :
  exists lightest darkest : Q,
    extremeLightness base = (Some lightest, Some darkest)
    /\ lightest == 97 /\ darkest == 12.
Proof.
  exists (l base + 7 * ((97 - l base) / 7)), (l base + 7 * ((l base - 12) / 7) * (-1 # 1)).
  split; [reflexivity |]. split; field.
Qed.

(** C6, as the code has it.  Shade 25 takes the seventh of seven steps of
    [(97 - l)/7] and shade 950 the seventh of seven steps of [(l - 12)/7], in
    whatever arithmetic the numbers have: the step count includes the
    endpoint.  In binary64 the two shades therefore land on the anchors up to
    rounding, and can land on them exactly: at [l = 50] they are exactly 97
    and 12; at [l = 41] shade 25 is 97 and shade 950 is 11.999999999999996;
    and for every base lightness [k/100], [k] from 0 to 10000, both are
    within 2^-46 of their anchor. *)
#[warnings="-inexact-float"]
Theorem extreme_shades_take_the_seventh_step :
  (forall (num : Type) (N : JsNumber num) (base : HslaColor num),
     extremeLightness base
     = (Some (nadd (l base)
                (nmul (ofZ 7) (ndiv (nsub (ofZ 97) (l base)) (ofZ 7)))),
        Some (nadd (l base)
                (nmul (nmul (ofZ 7) (ndiv (nsub (l base) (ofZ 12)) (ofZ 7)))
                   (ofZ (-1))))))
  /\ extremeLightness (mkHslaColor 210 50 50 1)%float = (Some 97%float, Some 12%float)
  /\ extremeLightness (mkHslaColor 210 50 41 1)%float
     = (Some 97%float, Some 11.999999999999996%float)
  /\ ltb 11.999999999999996%float 12%float = true
  /\ forallb (nearAnchors64 (1 / floatOfZ (2 ^ 46))%float)
       (map Z.of_nat (seq 0 (Z.to_nat 10001))) = true.
Proof.
  split; [| split; [| split; [| split]]].
  - intros num N base. reflexivity.
  - vm_compute. reflexivity.
  - vm_compute. reflexivity.
  - vm_compute. reflexivity.
  - vm_compute. reflexivity.
Qed.

(** C6 fails for a mid-grey-blue whose lightness 50 is neither anchor: in
    exact arithmetic and in binary64 alike, shade 25 comes out at exactly 97
    and shade 950 at exactly 12. *)
Lemma extreme_shades_exact_at_50 :
  let base := mkHslaColor 210 50 50 1 in
  let scale := generateFilledScaleFromBaseHslaColor base in
  let base64 := mkHslaColor 210%float 50%float 50%float 1%float in
  let scale64 := generateFilledScaleFromBaseHslaColor base64 in
  ~ l base == 97 /\ ~ l base == 12
  /\ ~ (forall lightest darkest,
          Obj.get "25" scale = Some lightest -> Obj.get "950" scale = Some darkest ->
          ~ l lightest == 97 /\ ~ l darkest == 12)
  /\ option_map l (Obj.get "25" scale64) = Some 97%float
  /\ option_map l (Obj.get "950" scale64) = Some 12%float.
Proof.
  cbv zeta. split; [| split; [| split; [| split]]].
  - vm_compute. discriminate.
  - vm_compute. discriminate.
  - intros Hmiss.
    destruct (Hmiss _ _ eq_refl eq_refl) as [H97 _]. apply H97. vm_compute. reflexivity.
  - vm_compute. reflexivity.
  - vm_compute. reflexivity.
Qed.

(** The lightness ramp descends exactly when the base lies between the
    anchors. *)
Lemma lightness_ramp_descends_iff (base : HslaColor Q) :
  nonIncreasing (lightnessRamp (generateFilledScaleFromBaseHslaColor base))
  <-> 12 <= l base <= 97.
Proof.
  rewrite generateFilledScale_closed_form. destruct base as [bh bs bl ba].
  unroll_ramp.
  pose proof (seventh_cancels (97 - bl)) as Hl.
  pose proof (seventh_cancels (bl - 12)) as Hd.
  set (t := (97 - bl) / 7) in *. set (u := (bl - 12) / 7) in *. clearbody t u.
  split.
  - intros (H1 & H2 & H3 & H4 & H5 & H6 & H7 & H8 & _). split; lra.
  - intros [Hlo Hhi]. repeat split; lra.
Qed.
(** The alpha table in binary64 is the table of literals of the source. *)
#[warnings="-inexact-float"]
Lemma alphas_binary64 :
  alphas (num := float)
  = [0.02; 0.03; 0.07; 0.11; 0.15; 0.28; 0.41; 0.53; 0.62; 0.73; 0.78; 0.81; 0.84; 0.87;
     0.92]%float.
Proof. vm_compute. reflexivity. Qed.

(** C8.  The alpha generator gives every shade the base's hue, saturation and
    lightness and the alpha of the fixed table at the shade's index; the table
    never decreases, and the base's own alpha plays no part. *)
Theorem alpha_scale_follows_table (base : HslaColor Q) :
  let table := [0.02; 0.03; 0.07; 0.11; 0.15; 0.28; 0.41; 0.53; 0.62; 0.73; 0.78; 0.81;
                0.84; 0.87; 0.92] in
  generateFilledAlphaScaleFromBaseHslaColor base
  = combine ALL_SHADES
      (map (fun alpha => Some (mkHslaColor (h base) (s base) (l base) alpha)) table)
  /\ alphaRamp (generateFilledAlphaScaleFromBaseHslaColor base) = table
  /\ nonDecreasing table
  /\ (forall alpha : Q,
        generateFilledAlphaScaleFromBaseHslaColor (setHslaAlpha base alpha)
        = generateFilledAlphaScaleFromBaseHslaColor base).
Proof.
  cbv zeta. split; [reflexivity |]. split; [reflexivity |]. split.
  - simpl. repeat split; lra.
  - intros alpha. reflexivity.
Qed.
End GeneratorArithmetic.

(* ================================================================== *)
(** * 14. Loops over the shade ladder                                    *)
(* ================================================================== *)

Section LoopFacts.

Lemma fold_left_pointwise_in {A B : Type} (F G : A -> B -> A) (xs : list B) (x0 : A) :
  (forall acc x, In x xs -> F acc x = G acc x) -> fold_left F xs x0 = fold_left G xs x0.
Proof.
  revert x0. induction xs as [| x xs IH]; intros x0 E; simpl; [reflexivity |].
  rewrite E by now left. apply IH. intros acc y Hy. apply E. now right.
Qed.

Lemma filter_all {A : Type} (c : A -> bool) (xs : list A) :
  (forall x, In x xs -> c x = true) -> filter c xs = xs.
Proof.
  induction xs as [| x xs IH]; simpl; intros Hc; [reflexivity |].
  rewrite Hc by now left. rewrite IH; [reflexivity |]. intros y Hy. apply Hc. now right.
Qed.

Lemma NoDup_map_append (prefix : string) (ks : list string) :
  NoDup ks -> NoDup (map (append prefix) ks).
Proof.
  induction 1 as [| k ks Hk Hnd IH]; simpl; constructor; [| exact IH].
  rewrite in_map_iff. intros (k' & E & I). apply append_inj_l in E. now subst.
Qed.

Lemma ALL_SHADES_NoDup : NoDup ALL_SHADES.
Proof.
  repeat (constructor; [simpl; intuition discriminate |]). constructor.
Qed.

Lemma ALL_SHADES_cases (P : string -> Prop) :
  P "25" -> P "50" -> P "100" -> P "150" -> P "200" -> P "300" -> P "400" -> P "500" ->
  P "600" -> P "700" -> P "750" -> P "800" -> P "850" -> P "900" -> P "950" ->
  forall key, In key ALL_SHADES -> P key.
Proof.
  intros. simpl in *.
  repeat match goal with H : _ \/ _ |- _ => destruct H as [<- | H] end;
    trivial; contradiction.
Qed.

End LoopFacts.


(* ================================================================== *)
(** * 15. The colour-mix lightness path                                  *)
(* ================================================================== *)

Section ColorMixLightness.

Lemma keys_map_entries {A V : Type} (F : A -> string) (W : A -> option V) (xs : list A) :
  Obj.keys (map (fun y => (F y, W y)) xs) = map F xs.
Proof. unfold Obj.keys. rewrite map_map. reflexivity. Qed.

Lemma lookup_map_filter {V : Type} (W : string -> option V) (c : string -> bool)
      (ks : list string) (k : string) :
  In k ks ->
  Obj.lookup k (map (fun y => (y, W y)) (filter c ks))
  = if c k then Some (W k) else None.
Proof.
  intros Hin. destruct (c k) eqn:Ec.
  - apply ObjFacts.lookup_map_self. apply filter_In. auto.
  - apply ObjFacts.lookup_none_notin. rewrite keys_map_entries, map_id.
    rewrite filter_In. intros [_ E]. congruence.
Qed.

Lemma collectUserProvidedShades_entries (colorOption : JsObject string) :
  collectUserProvidedShades colorOption
  = map (fun key => (key, Obj.get key colorOption))
        (filter (fun key => truthyProp (Obj.get key colorOption)) ALL_SHADES).
Proof.
  exact (ObjFacts.fold_set_fresh (fun key => key) (fun key => Obj.get key colorOption)
           (fun key => truthyProp (Obj.get key colorOption)) ALL_SHADES []
           ALL_SHADES_NoDup (fun _ _ H => H)).
Qed.

Lemma prefixMergedScale_entries (mergedScale : JsObject string) (prefix : string) :
  prefixMergedScale mergedScale prefix
  = map (fun key => (prefix ++ key, Obj.get key mergedScale))
        (filter (fun key => truthyProp (Obj.get key mergedScale)) ALL_SHADES).
Proof.
  exact (ObjFacts.fold_set_fresh (append prefix) (fun key => Obj.get key mergedScale)
           (fun key => truthyProp (Obj.get key mergedScale)) ALL_SHADES []
           (NoDup_map_append prefix _ ALL_SHADES_NoDup) (fun _ _ H => H)).
Qed.

Lemma generateColorMixScale_closed_form (baseFor500 : string) :
  generateColorMixScale baseFor500
  = [ ("25", Some (lighten baseFor500 "92%")); ("50", Some (lighten baseFor500 "85%"));
      ("100", Some (lighten baseFor500 "70%")); ("150", Some (lighten baseFor500 "55%"));
      ("200", Some (lighten baseFor500 "40%")); ("300", Some (lighten baseFor500 "25%"));
      ("400", Some (lighten baseFor500 "10%")); ("500", Some baseFor500);
      ("600", Some (darken baseFor500 "10%")); ("700", Some (darken baseFor500 "25%"));
      ("750", Some (darken baseFor500 "40%")); ("800", Some (darken baseFor500 "55%"));
      ("850", Some (darken baseFor500 "70%")); ("900", Some (darken baseFor500 "85%"));
      ("950", Some (darken baseFor500 "92%")) ].
Proof. reflexivity. Qed.

Lemma generateColorMixScale_keys (baseFor500 : string) :
  Obj.keys (generateColorMixScale baseFor500) = ALL_SHADES.
Proof. reflexivity. Qed.

Lemma generateColorMixScale_truthy (baseFor500 key : string) :
  Js.truthyString baseFor500 = true ->
  In key ALL_SHADES ->
  truthyProp (Obj.get key (generateColorMixScale baseFor500)) = true.
Proof.
  intros Hb. revert key. apply ALL_SHADES_cases; try reflexivity. exact Hb.
Qed.

(** The shade the colour-mix lightness generator puts under [key]: the
    caller's own entry when it is truthy, the generated one otherwise. *)
Lemma merged_shade (colorOption : JsObject string) (baseFor500 key : string) :
  In key ALL_SHADES ->
  Obj.get key (Obj.spread (generateColorMixScale baseFor500)
                          (collectUserProvidedShades colorOption))
  = if truthyProp (Obj.get key colorOption)
    then Obj.get key colorOption
    else Obj.get key (generateColorMixScale baseFor500).
Proof.
  intros Hin. rewrite ObjFacts.get_spread.
  - rewrite collectUserProvidedShades_entries, lookup_map_filter by exact Hin.
    now destruct (truthyProp (Obj.get key colorOption)).
  - rewrite generateColorMixScale_keys. apply ALL_SHADES_NoDup.
  - rewrite collectUserProvidedShades_entries, keys_map_entries, map_id.
    apply NoDup_filter, ALL_SHADES_NoDup.
Qed.

Lemma createColorMixLightnessScale_object
      (colorOption : JsObject string) (prefix baseFor500 : string) :
  Obj.get "500" colorOption = Some baseFor500 ->
  Js.truthyString baseFor500 = true ->
  createColorMixLightnessScale (Obj colorOption) prefix
  = Ok (Some (map (fun key =>
                     (prefix ++ key,
                      if truthyProp (Obj.get key colorOption)
                      then Obj.get key colorOption
                      else Obj.get key (generateColorMixScale baseFor500)))
                  ALL_SHADES)).
Proof.
  intros Hbase Htruthy. unfold createColorMixLightnessScale.
  cbn [truthy negb]. rewrite Hbase, Htruthy. cbn [negb].
  do 2 f_equal. rewrite prefixMergedScale_entries.
  assert (Hshade : forall key, In key ALL_SHADES ->
            truthyProp (Obj.get key (Obj.spread (generateColorMixScale baseFor500)
                                       (collectUserProvidedShades colorOption))) = true).
  { intros key Hin. rewrite merged_shade by exact Hin.
    destruct (truthyProp (Obj.get key colorOption)) eqn:E; [exact E |].
    now apply generateColorMixScale_truthy. }
  rewrite filter_all by exact Hshade.
  apply map_ext_in. intros key Hin. now rewrite merged_shade.
Qed.

Lemma createColorMixLightnessScale_string (color prefix : string) :
  Js.truthyString color = true ->
  createColorMixLightnessScale (Str color) prefix
  = Ok (Some (map (fun key => (prefix ++ key, Obj.get key (generateColorMixScale color)))
                  ALL_SHADES)).
Proof.
  intros Htruthy. unfold createColorMixLightnessScale.
  cbn [truthy negb]. rewrite Htruthy. cbn [negb].
  do 2 f_equal. rewrite prefixMergedScale_entries.
  assert (Hget : forall key,
            Obj.get key (Obj.spread (generateColorMixScale color) [])
            = Obj.get key (generateColorMixScale color)).
  { intros key. rewrite ObjFacts.get_spread.
    - reflexivity.
    - rewrite generateColorMixScale_keys. apply ALL_SHADES_NoDup.
    - constructor. }
  rewrite filter_all.
  - apply map_ext. intros key. now rewrite Hget.
  - intros key Hin. rewrite Hget. now apply generateColorMixScale_truthy.
Qed.

End ColorMixLightness.

(* ================================================================== *)
(** * 16. The HSLA paths                                                 *)
(* ================================================================== *)

Section MapM.
Context {A B : Type}.

Lemma mapM_all_ok (f : A -> Result B) (g : A -> B) (xs : list A) :
  (forall x, In x xs -> f x = Ok (g x)) -> mapM f xs = Ok (map g xs).
Proof.
  induction xs as [| x xs IH]; simpl; intros Hf; [reflexivity |].
  rewrite Hf by now left. simpl. rewrite IH; [reflexivity |].
  intros y Hy. apply Hf. now right.
Qed.

Lemma mapM_ok_each (f : A -> Result B) (xs : list A) (ys : list B) :
  mapM f xs = Ok ys -> forall x, In x xs -> exists y, f x = Ok y.
Proof.
  revert ys. induction xs as [| x xs IH]; simpl; intros ys E y Hy; [contradiction |].
  destruct (f x) as [fx | msg] eqn:Ex; simpl in E; [| discriminate].
  destruct (mapM f xs) as [fxs | msg] eqn:Exs; simpl in E; [| discriminate].
  destruct Hy as [<- | Hy]; [eauto |]. eapply IH; eauto.
Qed.
End MapM.

Section HslaPaths.
Context {num : Type} `{JsNumber num}.
Variable toHslaColor : option string -> Result (HslaColor num).
Variable toHslaString : HslaColor num -> HslaColorString.

Local Abbreviation parsed := (parsedShade toHslaColor).

Lemma prefixAndStringify_entries (W : string -> option (HslaColor num))
      (ks : list string) (prefix : string) :
  NoDup ks ->
  prefixAndStringifyHslaScale toHslaString (map (fun k => (k, W k)) ks) prefix
  = map (fun k => (prefix ++ k, option_map toHslaString (W k)))
        (filter (fun k => match W k with Some _ => true | None => false end) ks).
Proof.
  intros Hnd. unfold prefixAndStringifyHslaScale.
  rewrite keys_map_entries, map_id.
  assert (Hget : forall k, In k ks ->
            Obj.get k (map (fun k => (k, W k)) ks) = W k).
  { intros k Hin. unfold Obj.get. now rewrite ObjFacts.lookup_map_self. }
  set (scale := map (fun k => (k, W k)) ks) in *.
  transitivity
    (fold_left (fun acc k => if match W k with Some _ => true | None => false end
                             then Obj.set (prefix ++ k) (option_map toHslaString (W k)) acc
                             else acc) ks []).
  - apply fold_left_pointwise_in. intros acc k Hin. rewrite Hget by exact Hin.
    now destruct (W k).
  - exact (ObjFacts.fold_set_fresh (append prefix)
             (fun k => option_map toHslaString (W k))
             (fun k => match W k with Some _ => true | None => false end) ks []
             (NoDup_map_append prefix ks Hnd) (fun _ _ F => F)).
Qed.

Lemma NoDup_self_entries {V : Type} (W : string -> option V) (ks : list string) :
  NoDup ks -> NoDup (map fst (map (fun k => (k, W k)) ks)).
Proof. intros Hnd. now rewrite map_map, map_id. Qed.

Lemma hslaEntries_total (baseScale : JsObject string) :
  parsesAll toHslaColor baseScale ->
  hslaEntries toHslaColor baseScale = Ok (map (fun k => (k, parsed baseScale k)) ALL_SHADES).
Proof.
  intros Hall. unfold hslaEntries. apply mapM_all_ok. intros k Hin.
  unfold parsedShade. destruct (truthyProp (Obj.get k baseScale)) eqn:E; [| reflexivity].
  destruct (Hall k Hin E) as [color ->]. reflexivity.
Qed.

Lemma hslaEntries_ok (baseScale : JsObject string) es :
  hslaEntries toHslaColor baseScale = Ok es -> parsesAll toHslaColor baseScale.
Proof.
  intros E k Hin Ht. unfold hslaEntries in E.
  destruct (mapM_ok_each _ _ _ E k Hin) as [y Hy].
  rewrite Ht in Hy. destruct (toHslaColor (Obj.get k baseScale)); [eauto | discriminate].
Qed.

Lemma generated_shade_present (base : HslaColor num) (key : string) :
  In key ALL_SHADES ->
  exists color, Obj.get key (generateFilledScaleFromBaseHslaColor base) = Some color.
Proof.
  revert key. apply ALL_SHADES_cases; eexists; reflexivity.
Qed.

(** The lightness path on a base scale whose truthy shades all parse: every
    shade is the caller's parsed colour when there is one and the generated
    colour otherwise. *)
Lemma fill_core (baseScale : JsObject string) (prefix : string) (base : HslaColor num) :
  parsesAll toHslaColor baseScale ->
  parsed baseScale "500" = Some base ->
  (entries <- hslaEntries toHslaColor baseScale ;;
   let userDefinedHslaColorScale := fromEntries entries in
   base <-
     match Obj.get "500" userDefinedHslaColorScale with
     | Some base => Ok base
     | None => Throw typeErrorMessage
     end ;;
   Ok (Some (prefixAndStringifyHslaScale toHslaString
               (mergeFilledIntoUserDefinedScale
                  (generateFilledScaleFromBaseHslaColor base) userDefinedHslaColorScale)
               prefix)))
  = Ok (Some (map (fun k =>
                     (prefix ++ k,
                      option_map toHslaString
                        (orElse (parsed baseScale k)
                                (Obj.get k (generateFilledScaleFromBaseHslaColor base)))))
                  ALL_SHADES)).
Proof.
  intros Hall Hbase. rewrite hslaEntries_total by exact Hall. cbn [bind].
  unfold fromEntries at 1 2.
  rewrite ObjFacts.fromEntries_distinct
    by (apply NoDup_self_entries, ALL_SHADES_NoDup).
  unfold Obj.get at 1.
  rewrite (ObjFacts.lookup_map_self (parsed baseScale) ALL_SHADES "500")
    by (simpl; tauto).
  rewrite Hbase. cbn [bind]. do 2 f_equal.
  unfold mergeFilledIntoUserDefinedScale, fromEntries. rewrite map_map. cbn [fst snd].
  rewrite ObjFacts.fromEntries_distinct
    by (apply NoDup_self_entries, ALL_SHADES_NoDup).
  rewrite prefixAndStringify_entries by apply ALL_SHADES_NoDup.
  rewrite filter_all; [reflexivity |].
  intros k Hin. destruct (generated_shade_present base k Hin) as [color ->].
  now destruct (parsed baseScale k).
Qed.

Lemma object_as_entries {V : Type} (o : JsObject V) :
  NoDup (Obj.keys o) -> o = map (fun k => (k, Obj.get k o)) (Obj.keys o).
Proof.
  induction o as [| [k v] o IH]; simpl; intros Hnd; [reflexivity |].
  inversion Hnd as [| ? ? Hk Hnd']; subst.
  unfold Obj.get at 1. simpl. rewrite String.eqb_refl. f_equal.
  rewrite IH at 1 by exact Hnd'. apply map_ext_in. intros k' Hk'.
  unfold Obj.get. simpl. destruct (String.eqb_spec k k') as [-> | N]; [contradiction |].
  reflexivity.
Qed.

(** Printing a scale whose keys are distinct and whose shades are all there. *)
Lemma prefixAndStringify_scale (scale : HslaScale num) (prefix : string) :
  NoDup (Obj.keys scale) ->
  (forall k, In k (Obj.keys scale) -> exists color, Obj.get k scale = Some color) ->
  prefixAndStringifyHslaScale toHslaString scale prefix
  = map (fun k => (prefix ++ k, option_map toHslaString (Obj.get k scale)))
        (Obj.keys scale).
Proof.
  intros Hnd Hall. rewrite (object_as_entries scale Hnd) at 1.
  rewrite prefixAndStringify_entries by exact Hnd.
  rewrite filter_all; [reflexivity |].
  intros k Hin. now destruct (Hall k Hin) as [color ->].
Qed.

Lemma hsla_lightness_object (scale : JsObject string) (prefix : string) :
  truthyProp (Obj.get "500" scale) = true ->
  parsesAll toHslaColor scale ->
  exists base,
    toHslaColor (Obj.get "500" scale) = Ok base
    /\ colorOptionToHslaLightnessScale toHslaColor toHslaString (Obj scale) prefix
       = Ok (Some (map (fun k =>
                          (prefix ++ k,
                           option_map toHslaString
                             (orElse (parsed scale k)
                                (Obj.get k (generateFilledScaleFromBaseHslaColor base)))))
                       ALL_SHADES)).
Proof.
  intros Hbase Hall.
  destruct (Hall "500") as [base Ebase]; [simpl; tauto | exact Hbase |].
  exists base. split; [exact Ebase |].
  unfold colorOptionToHslaLightnessScale, fillUserProvidedScaleWithGeneratedHslaColors.
  cbn [truthy negb]. rewrite Hbase. cbn [negb].
  unfold userDefinedColorToHslaColorScale. cbn [bind].
  rewrite <- (fill_core scale prefix base Hall)
    by (unfold parsedShade; now rewrite Hbase, Ebase).
  now destruct (hslaEntries toHslaColor scale).
Qed.

Lemma hsla_lightness_object_returns (scale : JsObject string) (prefix : string) r :
  colorOptionToHslaLightnessScale toHslaColor toHslaString (Obj scale) prefix = Ok r ->
  truthyProp (Obj.get "500" scale) = true /\ parsesAll toHslaColor scale.
Proof.
  unfold colorOptionToHslaLightnessScale, fillUserProvidedScaleWithGeneratedHslaColors.
  cbn [truthy negb]. destruct (truthyProp (Obj.get "500" scale)); cbn [negb];
    [| discriminate].
  unfold userDefinedColorToHslaColorScale. cbn [bind].
  destruct (hslaEntries toHslaColor scale) as [es | msg] eqn:E; [| discriminate].
  intros _. split; [reflexivity |]. eapply hslaEntries_ok; eauto.
Qed.

Lemma hsla_lightness_string (color prefix : string) (base : HslaColor num) :
  Js.truthyString color = true ->
  toHslaColor (Some color) = Ok base ->
  colorOptionToHslaLightnessScale toHslaColor toHslaString (Str color) prefix
  = Ok (Some (prefixedEntries toHslaString prefix
                (scaleColors (generateFilledScaleFromBaseHslaColor base)))).
Proof.
  intros Htruthy Ebase.
  assert (Hall : parsesAll toHslaColor [("500", Some color)]).
  { unfold parsesAll.
    apply (ALL_SHADES_cases
             (fun k => truthyProp (Obj.get k [("500", Some color)]) = true ->
                       exists c, toHslaColor (Obj.get k [("500", Some color)]) = Ok c));
      try discriminate.
    intros _. exists base. exact Ebase. }
  unfold colorOptionToHslaLightnessScale, fillUserProvidedScaleWithGeneratedHslaColors.
  cbn [truthy negb]. rewrite Htruthy. cbn [negb].
  unfold userDefinedColorToHslaColorScale. cbn [bind].
  transitivity
    (Ok (Some (map (fun k =>
                      (prefix ++ k,
                       option_map toHslaString
                         (orElse (parsed [("500", Some color)] k)
                            (Obj.get k (generateFilledScaleFromBaseHslaColor base)))))
                   ALL_SHADES))).
  - rewrite <- (fill_core [("500", Some color)] prefix base Hall).
    + now destruct (hslaEntries toHslaColor [("500", Some color)]).
    + unfold parsedShade. cbn [Obj.get Obj.lookup String.eqb Ascii.eqb Bool.eqb truthyProp].
      now rewrite Htruthy, Ebase.
  - do 2 f_equal. unfold prefixedEntries.
    assert (E500 : parsed [("500", Some color)] "500" = Some base).
    { unfold parsedShade. cbn [Obj.get Obj.lookup String.eqb Ascii.eqb Bool.eqb truthyProp].
      now rewrite Htruthy, Ebase. }
    cbn [map ALL_SHADES LIGHT_SHADES DARK_SHADES rev app]. rewrite E500.
    reflexivity.
Qed.

(** The reduce of the alpha path over the keys of an option object. *)
Lemma alpha_reduce_throw (option : JsObject string) (ks : list string) (msg : string) :
  fold_left
    (fun acc key =>
       acc' <- acc ;;
       color <- toHslaColor (Obj.get key option) ;;
       Ok (Obj.set key (Some color) acc'))
    ks (Throw msg)
  = Throw msg.
Proof. induction ks as [| k ks IH]; simpl; [reflexivity | exact IH]. Qed.

Lemma alpha_reduce_ok (option : JsObject string) (ks : list string)
      (acc scale : HslaScale num) :
  (forall k, In k ks -> In k (Obj.keys acc)) ->
  fold_left
    (fun acc key =>
       acc' <- acc ;;
       color <- toHslaColor (Obj.get key option) ;;
       Ok (Obj.set key (Some color) acc'))
    ks (Ok acc)
  = Ok scale ->
  Obj.keys scale = Obj.keys acc
  /\ (forall k, In k ks \/ (exists c, Obj.get k acc = Some c) ->
                exists c, Obj.get k scale = Some c).
Proof.
  revert acc. induction ks as [| k ks IH]; intros acc Hsub E; simpl in E.
  - injection E as <-. split; [reflexivity |]. intros k [[] | Hk]. exact Hk.
  - destruct (toHslaColor (Obj.get k option)) as [color | msg] eqn:Ek; simpl in E;
      [| rewrite alpha_reduce_throw in E; discriminate].
    assert (Hk : In k (Obj.keys acc)) by (apply Hsub; now left).
    apply IH in E.
    + destruct E as [Ekeys Esome].
      rewrite Ekeys, ObjFacts.keys_set_present by exact Hk.
      split; [reflexivity |].
      intros k' Hk'. apply Esome.
      destruct (string_dec k k') as [<- | N].
      * right. rewrite ObjFacts.get_set_same. eauto.
      * destruct Hk' as [[-> | Hin] | Hc]; [congruence | now left |].
        right. now rewrite ObjFacts.get_set_other.
    + intros k' Hk'. rewrite ObjFacts.keys_set_present by exact Hk.
      apply Hsub. now right.
Qed.

Lemma hsla_alpha_object_keys (option : JsObject string) (prefix : string) r :
  (forall k, In k (Obj.keys option) -> In k ALL_SHADES) ->
  colorOptionToHslaAlphaScale toHslaColor toHslaString (Obj option) prefix = Ok r ->
  exists scale : HslaScale num,
    r = Some (map (fun k => (prefix ++ k, option_map toHslaString (Obj.get k scale)))
                  ALL_SHADES)
    /\ forall k, In k ALL_SHADES -> exists c, Obj.get k scale = Some c.
Proof.
  intros Hvalid.
  unfold colorOptionToHslaAlphaScale, getUserProvidedScaleOrGenerateHslaColorsScale.
  cbn [truthy negb].
  destruct (forallb (fun key => Obj.has key option) ALL_SHADES) eqn:Eall; cbn [negb];
    [| discriminate].
  match goal with
  | |- bind ?m _ = _ -> _ => destruct m as [scale | msg] eqn:E; cbn [bind]; [| discriminate]
  end.
  intros [= <-].
  apply alpha_reduce_ok in E; [| exact Hvalid].
  destruct E as [Ekeys Esome].
  assert (Hpresent : forall k, In k ALL_SHADES -> exists c, Obj.get k scale = Some c).
  { intros k Hin. apply Esome. left.
    rewrite forallb_forall in Eall. apply ObjFacts.has_in. now apply Eall. }
  exists scale. split; [| exact Hpresent].
  f_equal. rewrite prefixAndStringify_scale; rewrite Ekeys.
  - reflexivity.
  - apply ALL_SHADES_NoDup.
  - exact Hpresent.
Qed.

Lemma hsla_alpha_string (color prefix : string) (base : HslaColor num) :
  Js.truthyString color = true ->
  toHslaColor (Some color) = Ok base ->
  colorOptionToHslaAlphaScale toHslaColor toHslaString (Str color) prefix
  = Ok (Some (prefixedEntries toHslaString prefix
                (scaleColors (generateFilledAlphaScaleFromBaseHslaColor base)))).
Proof.
  intros Htruthy Ebase.
  unfold colorOptionToHslaAlphaScale, getUserProvidedScaleOrGenerateHslaColorsScale.
  cbn [truthy negb]. rewrite Htruthy, Ebase. cbn [negb bind]. do 2 f_equal.
  rewrite prefixAndStringify_scale.
  - reflexivity.
  - apply ALL_SHADES_NoDup.
  - apply ALL_SHADES_cases; eexists; reflexivity.
Qed.

End HslaPaths.

(* ================================================================== *)
(** * 17. The scales the entry points return                             *)
(* ================================================================== *)

Lemma prefixed_keys_distinct (prefix : string) :
  length (map (append prefix) ALL_SHADES) = 15%nat
  /\ NoDup (map (append prefix) ALL_SHADES).
Proof.
  split; [reflexivity | apply NoDup_map_append, ALL_SHADES_NoDup].
Qed.

Section ReturnedScales.
Context {num : Type} `{JsNumber num}.
Variable toHslaColor : option string -> Result (HslaColor num).
Variable toHslaString : HslaColor num -> HslaColorString.

Local Abbreviation alphaScale := (colorOptionToAlphaScale toHslaColor toHslaString).
Local Abbreviation lightnessScale := (colorOptionToLightnessScale toHslaColor toHslaString).

Lemma createAlphaScaleWithTransparentize_keys (baseColor : ColorOption) (prefix : string) :
  Obj.keys (createAlphaScaleWithTransparentize baseColor prefix)
  = map (append prefix) ALL_SHADES.
Proof.
  unfold createAlphaScaleWithTransparentize.
  rewrite ObjFacts.fromEntries_distinct.
  - reflexivity.
  - rewrite map_map. cbn [fst]. apply (NoDup_map_append prefix ALL_SHADES ALL_SHADES_NoDup).
Qed.

(** C7.  An option object with a truthy '500' entry and a truthy entry [X]
    under another shade key [key]: the returned scale holds, under the
    prefixed key, [X] itself on the colour-mix branch and the printed parse of
    [X] on the HSLA branch.  The colour-mix branch always returns; the HSLA
    branch returns exactly when the parser accepts the truthy shades. *)
Theorem user_shade_overrides_generated
    (scale : JsObject string) (prefix key X : string) (cssSupports : bool) (w : Window.t) :
  In key ALL_SHADES ->
  truthyProp (Obj.get "500" scale) = true ->
  Obj.get key scale = Some X ->
  Js.truthyString X = true ->
  if fst (isColorMixSupported cssSupports w)
  then exists result,
         fst (lightnessScale (Obj scale) prefix cssSupports w) = Ok (Some result)
         /\ Obj.get (prefix ++ key) result = Some X
  else (forall r,
          fst (lightnessScale (Obj scale) prefix cssSupports w) = Ok r ->
          exists result parsedX,
            r = Some result
            /\ toHslaColor (Some X) = Ok parsedX
            /\ Obj.get (prefix ++ key) result = Some (toHslaString parsedX))
       /\ (parsesAll toHslaColor scale ->
           exists result,
             fst (lightnessScale (Obj scale) prefix cssSupports w) = Ok (Some result)).
Proof.
  intros Hkey Hbase HX HtX.
  unfold colorOptionToLightnessScale. cbn [truthy negb].
  destruct (isColorMixSupported cssSupports w) as [[|] w']; cbn [fst].
  - unfold truthyProp in Hbase.
    destruct (Obj.get "500" scale) as [baseFor500 |] eqn:E500; [| discriminate].
    rewrite (createColorMixLightnessScale_object scale prefix baseFor500 E500 Hbase).
    eexists. split; [reflexivity |].
    unfold Obj.get at 1.
    rewrite (ObjFacts.lookup_map_prefixed prefix
               (fun k => if truthyProp (Obj.get k scale) then Obj.get k scale
                         else Obj.get k (generateColorMixScale baseFor500))
               ALL_SHADES key Hkey).
    rewrite HX. cbn [truthyProp]. now rewrite HtX.
  - assert (Hshape : parsesAll toHslaColor scale ->
              exists result parsedX,
                colorOptionToHslaLightnessScale toHslaColor toHslaString (Obj scale) prefix
                = Ok (Some result)
                /\ toHslaColor (Some X) = Ok parsedX
                /\ Obj.get (prefix ++ key) result = Some (toHslaString parsedX)).
    { intros Hall.
      destruct (hsla_lightness_object toHslaColor toHslaString scale prefix Hbase Hall)
        as (base & _ & ->).
      destruct (Hall key Hkey) as [parsedX EX]; [rewrite HX; exact HtX |].
      rewrite HX in EX.
      eexists. exists parsedX. split; [reflexivity |]. split; [exact EX |].
      unfold Obj.get at 1.
      rewrite (ObjFacts.lookup_map_prefixed prefix
                 (fun k => option_map toHslaString
                             (orElse (parsedShade toHslaColor scale k)
                                (Obj.get k (generateFilledScaleFromBaseHslaColor base))))
                 ALL_SHADES key Hkey).
      unfold parsedShade. rewrite HX. cbn [truthyProp]. now rewrite HtX, EX. }
    split.
    + intros r Er.
      destruct (hsla_lightness_object_returns toHslaColor toHslaString scale prefix r Er)
        as [_ Hall].
      destruct (Hshape Hall) as (result & parsedX & E & EX & Eget).
      rewrite E in Er. injection Er as <-. eauto.
    + intros Hall. destruct (Hshape Hall) as (result & _ & E & _). eauto.
Qed.

(** C9, as the code has it.  For a truthy option (a non-empty string, or an
    object that has no keys besides shade keys) any scale an entry point
    returns has exactly the fifteen keys [prefix ++ shade], in shade order and
    without repetition; undefined is never returned.  On the colour-mix branch
    the alpha entry point always returns such a scale. *)
Theorem returned_scale_has_fifteen_prefixed_keys
    (colorOption : ColorOption) (prefix : string) (cssSupports : bool) (w : Window.t) :
  truthy colorOption = true ->
  (forall scale, colorOption = Obj scale ->
                 forall k, In k (Obj.keys scale) -> In k ALL_SHADES) ->
  let complete (r : option PrefixedScale) :=
    exists result,
      r = Some result
      /\ Obj.keys result = map (append prefix) ALL_SHADES
      /\ length (Obj.keys result) = 15%nat
      /\ NoDup (Obj.keys result) in
  (forall r, fst (alphaScale colorOption prefix cssSupports w) = Ok r -> complete r)
  /\ (forall r, fst (lightnessScale colorOption prefix cssSupports w) = Ok r -> complete r)
  /\ (fst (isColorMixSupported cssSupports w) = true ->
      exists result, fst (alphaScale colorOption prefix cssSupports w) = Ok (Some result)).
Proof.
  intros Htruthy Hvalid complete.
  assert (Hcomplete : forall result,
            Obj.keys result = map (append prefix) ALL_SHADES -> complete (Some result)).
  { intros result E. exists result. split; [reflexivity |]. split; [exact E |].
    rewrite E. apply prefixed_keys_distinct. }
  unfold colorOptionToAlphaScale, colorOptionToLightnessScale. rewrite Htruthy. cbn [negb].
  destruct (isColorMixSupported cssSupports w) as [[|] w']; cbn [fst].
  - split; [| split].
    + intros r [= <-]. apply Hcomplete.
      apply createAlphaScaleWithTransparentize_keys.
    + intros r Er. destruct colorOption as [| | color | scale]; try discriminate.
      * rewrite createColorMixLightnessScale_string in Er by exact Htruthy.
        injection Er as <-. apply Hcomplete.
        reflexivity.
      * assert (Hb : exists b, Obj.get "500" scale = Some b /\ Js.truthyString b = true).
        { unfold createColorMixLightnessScale in Er. cbn [truthy negb] in Er.
          destruct (Obj.get "500" scale) as [b |]; [| discriminate].
          destruct (Js.truthyString b) eqn:Eb; [eauto | discriminate]. }
        destruct Hb as (b & E500 & Eb).
        rewrite (createColorMixLightnessScale_object scale prefix b E500 Eb) in Er.
        injection Er as <-. apply Hcomplete.
        reflexivity.
    + intros _. eauto.
  - split; [| split; [| discriminate]].
    + intros r Er. destruct colorOption as [| | color | scale]; try discriminate.
      * assert (Hb : exists base, toHslaColor (Some color) = Ok base).
        { unfold colorOptionToHslaAlphaScale,
            getUserProvidedScaleOrGenerateHslaColorsScale in Er.
          rewrite Htruthy in Er. cbn [negb] in Er.
          destruct (toHslaColor (Some color)); [eauto | discriminate]. }
        destruct Hb as [base Eb].
        rewrite (hsla_alpha_string toHslaColor toHslaString color prefix base Htruthy Eb)
          in Er.
        injection Er as <-. apply Hcomplete.
        unfold prefixedEntries. rewrite generateFilledAlphaScale_closed_form. reflexivity.
      * destruct (hsla_alpha_object_keys toHslaColor toHslaString scale prefix r
                    (Hvalid scale eq_refl) Er) as (hsla & -> & _).
        apply Hcomplete. reflexivity.
    + intros r Er. destruct colorOption as [| | color | scale]; try discriminate.
      * assert (Hb : exists base, toHslaColor (Some color) = Ok base).
        { unfold colorOptionToHslaLightnessScale,
            fillUserProvidedScaleWithGeneratedHslaColors,
            userDefinedColorToHslaColorScale in Er.
          rewrite Htruthy in Er. cbn [negb bind] in Er.
          destruct (hslaEntries toHslaColor [("500", Some color)]) as [es |] eqn:Ees;
            [| discriminate].
          apply hslaEntries_ok in Ees.
          apply (Ees "500"); [simpl; tauto | exact Htruthy]. }
        destruct Hb as [base Eb].
        rewrite (hsla_lightness_string toHslaColor toHslaString color prefix base
                   Htruthy Eb) in Er.
        injection Er as <-. apply Hcomplete.
        unfold prefixedEntries. rewrite generateFilledScale_closed_form. reflexivity.
      * destruct (hsla_lightness_object_returns toHslaColor toHslaString scale prefix r Er)
          as [Hbase Hall].
        destruct (hsla_lightness_object toHslaColor toHslaString scale prefix Hbase Hall)
          as (base & _ & E).
        rewrite E in Er. injection Er as <-. apply Hcomplete.
        reflexivity.
Qed.

End ReturnedScales.

Section LightnessRamp.
Import PrimFloat.
Local Open Scope Q_scope.
Variable toHslaColor : option string -> Result (HslaColor Q).
Variable toHslaString : HslaColor Q -> HslaColorString.

(** C2, as the code has it.  On the HSLA branch a colour string that parses
    to [base] comes back as the printed shades of the generated scale, fifteen
    of them, and their lightness values taken from shade 25 to shade 950 never
    increase exactly when the base lightness lies between the anchors 12 and
    97. *)
Theorem lightness_ramp_descends_between_anchors
    (color prefix : string) (base : HslaColor Q) (cssSupports : bool) (w : Window.t) :
  Js.truthyString color = true ->
  toHslaColor (Some color) = Ok base ->
  fst (isColorMixSupported cssSupports w) = false ->
  let shades := scaleColors (generateFilledScaleFromBaseHslaColor base) in
  fst (colorOptionToLightnessScale toHslaColor toHslaString (Str color) prefix cssSupports w)
  = Ok (Some (prefixedEntries toHslaString prefix shades))
  /\ length shades = 15%nat
  /\ (nonIncreasing (map l shades) <-> 12 <= l base <= 97).
Proof.
  intros Htruthy Ebase Hprobe shades. split; [| split].
  - unfold colorOptionToLightnessScale. cbn [truthy negb]. rewrite Htruthy. cbn [negb].
    destruct (isColorMixSupported cssSupports w) as [supported w']. cbn [fst] in *.
    subst supported.
    now apply hsla_lightness_string.
  - reflexivity.
  - rewrite <- lightness_ramp_descends_iff. subst shades.
    rewrite generateFilledScale_closed_form. reflexivity.
Qed.
End LightnessRamp.

Section OutsideTheAnchors.
Import PrimFloat.
Local Open Scope Q_scope.

(** C2 fails for white, whose lightness 100 lies above the anchor 97: the
    "light" steps go down from the base, so the ramp climbs from 97 at shade
    25 to 100 at shade 500 (in binary64 as well). *)
Lemma white_lightness_ramp_climbs :
  let base := mkHslaColor 0 0 100 1 in
  let shades := scaleColors (generateFilledScaleFromBaseHslaColor base) in
  let base64 := mkHslaColor 0%float 0%float 100%float 1%float in
  let ramp64 := lightnessRamp (generateFilledScaleFromBaseHslaColor base64) in
  Sample.toHslaColor (Some "white") = Ok base
  /\ fst (colorOptionToLightnessScale Sample.toHslaColor Sample.toHslaString
            (Str "white") "p" false Sample.freshWindow)
     = Ok (Some (prefixedEntries Sample.toHslaString "p" shades))
  /\ map Qred (map l shades)
     = [97; 682 # 7; 685 # 7; 688 # 7; 691 # 7; 694 # 7; 697 # 7; 100;
        612 # 7; 524 # 7; 436 # 7; 348 # 7; 260 # 7; 172 # 7; 12]
  /\ ~ nonIncreasing (map l shades)
  /\ ltb (nth 0 ramp64 0%float) (nth 7 ramp64 0%float) = true.
Proof.
  cbv zeta. split; [reflexivity |]. split; [reflexivity |]. split; [reflexivity |].
  split; [| vm_compute; reflexivity].
  intros Hramp. vm_compute in Hramp. destruct Hramp as [Hle _]. apply Hle. reflexivity.
Qed.

(** C9 fails for the empty string, which is a string and not undefined: both
    entry points return undefined for it, so no scale with fifteen keys comes
    back. *)
Lemma empty_string_returns_no_scale :
  Str "" <> Undefined
  /\ fst (colorOptionToAlphaScale Sample.toHslaColor Sample.toHslaString
            (Str "") "p" true Sample.freshWindow) = Ok None
  /\ fst (colorOptionToLightnessScale Sample.toHslaColor Sample.toHslaString
            (Str "") "p" true Sample.freshWindow) = Ok None
  /\ ~ (exists result,
          fst (colorOptionToLightnessScale Sample.toHslaColor Sample.toHslaString
                 (Str "") "p" true Sample.freshWindow) = Ok (Some result)
          /\ Obj.keys result = map (append "p") ALL_SHADES).
Proof.
  split; [discriminate |]. split; [reflexivity |]. split; [reflexivity |].
  intros (result & E & _). discriminate E.
Qed.

End OutsideTheAnchors.

(* ================================================================== *)
(** * 18. The theorems at work on sample inputs                          *)
(* ================================================================== *)

Lemma lightness_ramp_witness :
  let base := mkHslaColor 240%Q 100%Q 25%Q 1%Q in
  let shades := scaleColors (generateFilledScaleFromBaseHslaColor base) in
  Js.truthyString "navy" = true
  /\ Sample.toHslaColor (Some "navy") = Ok base
  /\ fst (isColorMixSupported false Sample.freshWindow) = false
  /\ (fst (colorOptionToLightnessScale Sample.toHslaColor Sample.toHslaString
             (Str "navy") "p" false Sample.freshWindow)
      = Ok (Some (prefixedEntries Sample.toHslaString "p" shades))
      /\ length shades = 15%nat
      /\ (nonIncreasing (map l shades) <-> (12 <= l base <= 97)%Q)).
Proof.
  cbv zeta. split; [reflexivity |]. split; [reflexivity |]. split; [reflexivity |].
  apply (lightness_ramp_descends_between_anchors Sample.toHslaColor Sample.toHslaString
           "navy" "p" (mkHslaColor 240%Q 100%Q 25%Q 1%Q) false Sample.freshWindow);
    reflexivity.
Defined.

Lemma user_shade_overrides_witness :
  let scale := [("500", Some "navy"); ("700", Some "red")] in
  In "700" ALL_SHADES
  /\ truthyProp (Obj.get "500" scale) = true
  /\ Obj.get "700" scale = Some "red"
  /\ Js.truthyString "red" = true
  /\ exists result,
       fst (colorOptionToLightnessScale Sample.toHslaColor Sample.toHslaString
              (Obj scale) "p" true Sample.freshWindow) = Ok (Some result)
       /\ Obj.get "p700" result = Some "red".
Proof.
  cbv zeta.
  assert (Hkey : In "700" ALL_SHADES) by (simpl; tauto).
  split; [exact Hkey |]. split; [reflexivity |]. split; [reflexivity |].
  split; [reflexivity |].
  exact (user_shade_overrides_generated Sample.toHslaColor Sample.toHslaString
           [("500", Some "navy"); ("700", Some "red")] "p" "700" "red" true
           Sample.freshWindow Hkey eq_refl eq_refl eq_refl).
Defined.

Example user_shade_overrides_on_hsla_branch :
  exists result,
    fst (colorOptionToLightnessScale Sample.toHslaColor Sample.toHslaString
           (Obj [("500", Some "navy"); ("700", Some "red")]) "p" false Sample.freshWindow)
    = Ok (Some result)
    /\ Obj.get "p700" result = Some "hsla(0/1, 100/1%, 50/1%, 1/1)"
    /\ Obj.get "p500" result = Some "hsla(240/1, 100/1%, 25/1%, 1/1)".
Proof. eexists. split; [reflexivity |]. split; reflexivity. Qed.

Lemma returned_scale_witness :
  truthy (Str "navy") = true
  /\ (forall scale, Str "navy" = Obj scale ->
                    forall k, In k (Obj.keys scale) -> In k ALL_SHADES)
  /\ forall r,
       fst (colorOptionToAlphaScale Sample.toHslaColor Sample.toHslaString
              (Str "navy") "p" false Sample.freshWindow) = Ok r ->
       exists result,
         r = Some result
         /\ Obj.keys result = map (append "p") ALL_SHADES
         /\ length (Obj.keys result) = 15%nat
         /\ NoDup (Obj.keys result).
Proof.
  assert (Hvalid : forall scale, Str "navy" = Obj scale ->
                     forall k, In k (Obj.keys scale) -> In k ALL_SHADES)
    by (intros scale E; discriminate E).
  split; [reflexivity |]. split; [exact Hvalid |].
  exact (proj1 (returned_scale_has_fifteen_prefixed_keys Sample.toHslaColor
                  Sample.toHslaString (Str "navy") "p" false Sample.freshWindow
                  eq_refl Hvalid)).
Defined.

Example alpha_scale_of_navy_on_hsla_branch :
  exists result,
    fst (colorOptionToAlphaScale Sample.toHslaColor Sample.toHslaString
           (Str "navy") "p" false Sample.freshWindow) = Ok (Some result)
    /\ Obj.keys result
       = ["p25"; "p50"; "p100"; "p150"; "p200"; "p300"; "p400"; "p500";
          "p600"; "p700"; "p750"; "p800"; "p850"; "p900"; "p950"]
    /\ Obj.get "p25" result = Some "hsla(240/1, 100/1%, 25/1%, 2/100)".
Proof. eexists. split; [reflexivity |]. split; reflexivity. Qed.

(* ================================================================== *)
(** * 19. Further properties of the entry points                         *)
(* ================================================================== *)

(** The probe asks the CSS capability query at most once: a second call
    returns the cached answer whatever the query would say then, and leaves
    the window as the first call left it. *)
Theorem probe_answer_is_cached (cssSupports cssSupports' : bool) (w : Window.t) :
  isColorMixSupported cssSupports' (snd (isColorMixSupported cssSupports w))
  = isColorMixSupported cssSupports w.
Proof.
  unfold isColorMixSupported.
  destruct (Window.ClerkCSSSupport w) as [[[cached |]] |]; reflexivity.
Qed.

Section FurtherProperties.
Context {num : Type} `{JsNumber num}.
Variable toHslaColor : option string -> Result (HslaColor num).
Variable toHslaString : HslaColor num -> HslaColorString.

Local Abbreviation alphaScale := (colorOptionToAlphaScale toHslaColor toHslaString).
Local Abbreviation lightnessScale := (colorOptionToLightnessScale toHslaColor toHslaString).

(** On the HSLA branch the alpha entry point refuses an option object that
    lacks one of the fifteen shade keys, naming all of them. *)
Theorem incomplete_alpha_object_throws_on_hsla_branch
    (scale : JsObject string) (prefix : string) (cssSupports : bool) (w : Window.t) :
  forallb (fun key => Obj.has key scale) ALL_SHADES = false ->
  fst (isColorMixSupported cssSupports w) = false ->
  fst (alphaScale (Obj scale) prefix cssSupports w)
  = Throw ("You need to provide all the following shades: "
           ++ "25, 50, 100, 150, 200, 300, 400, 500, 600, 700, 750, 800, 850, 900, 950").
Proof.
  intros Hmissing Hprobe. unfold colorOptionToAlphaScale. cbn [truthy negb].
  destruct (isColorMixSupported cssSupports w) as [supported w']. cbn [fst] in *.
  subst supported. now apply hsla_alpha_object_incomplete_throws.
Qed.

(** On the colour-mix branch a colour string comes back unchanged at shade
    500; shade 600 is the colour at 90% mixed with black at 10% and shade 400
    the colour at 90% mixed with white at 10%. *)
Theorem color_mix_lightness_of_string
    (color prefix : string) (cssSupports : bool) (w : Window.t) :
  Js.truthyString color = true ->
  fst (isColorMixSupported cssSupports w) = true ->
  exists result,
    fst (lightnessScale (Str color) prefix cssSupports w) = Ok (Some result)
    /\ Obj.get (prefix ++ "500") result = Some color
    /\ Obj.get (prefix ++ "600") result
       = Some ("color-mix(in oklch, " ++ color ++ " 90%, black 10%)")
    /\ Obj.get (prefix ++ "400") result
       = Some ("color-mix(in oklch, " ++ color ++ " 90%, white 10%)").
Proof.
  intros Htruthy Hprobe. unfold colorOptionToLightnessScale. cbn [truthy negb].
  rewrite Htruthy. cbn [negb].
  destruct (isColorMixSupported cssSupports w) as [supported w']. cbn [fst] in *.
  subst supported. rewrite createColorMixLightnessScale_string by exact Htruthy.
  eexists. split; [reflexivity |].
  assert (Hget : forall key, In key ALL_SHADES ->
            Obj.get (prefix ++ key)
              (map (fun k => (prefix ++ k, Obj.get k (generateColorMixScale color)))
                   ALL_SHADES)
            = Obj.get key (generateColorMixScale color)).
  { intros key Hin. unfold Obj.get at 1.
    now rewrite (ObjFacts.lookup_map_prefixed prefix
                   (fun k => Obj.get k (generateColorMixScale color)) ALL_SHADES key Hin). }
  rewrite !Hget by (simpl; tauto).
  split; [reflexivity |]. split.
  - change (Obj.get "600" (generateColorMixScale color))
      with (Some (colorMix (color ++ " " ++ "90" ++ "%") "black 10%")).
    now rewrite colorMix_first_operand.
  - change (Obj.get "400" (generateColorMixScale color))
      with (Some (colorMix (color ++ " " ++ "90" ++ "%") "white 10%")).
    now rewrite colorMix_first_operand.
Qed.

(** On the HSLA branch a colour string comes back at shade 500 as the printed
    form of its own parse. *)
Theorem hsla_base_shade_round_trips
    (color prefix : string) (base : HslaColor num) (cssSupports : bool) (w : Window.t) :
  Js.truthyString color = true ->
  toHslaColor (Some color) = Ok base ->
  fst (isColorMixSupported cssSupports w) = false ->
  exists result,
    fst (lightnessScale (Str color) prefix cssSupports w) = Ok (Some result)
    /\ Obj.get (prefix ++ "500") result = Some (toHslaString base).
Proof.
  intros Htruthy Ebase Hprobe. unfold colorOptionToLightnessScale. cbn [truthy negb].
  rewrite Htruthy. cbn [negb].
  destruct (isColorMixSupported cssSupports w) as [supported w']. cbn [fst] in *.
  subst supported.
  rewrite (hsla_lightness_string toHslaColor toHslaString color prefix base Htruthy Ebase).
  eexists. split; [reflexivity |].
  change (prefixedEntries toHslaString prefix
            (scaleColors (generateFilledScaleFromBaseHslaColor base)))
    with (map (fun k => (prefix ++ k,
                         option_map toHslaString
                           (Obj.get k (generateFilledScaleFromBaseHslaColor base))))
              ALL_SHADES).
  unfold Obj.get at 1.
  rewrite (ObjFacts.lookup_map_prefixed prefix
             (fun k => option_map toHslaString
                         (Obj.get k (generateFilledScaleFromBaseHslaColor base)))
             ALL_SHADES "500") by (simpl; tauto).
  reflexivity.
Qed.
End FurtherProperties.

Lemma incomplete_alpha_object_witness :
  forallb (fun key => Obj.has key [("500", Some "red")]) ALL_SHADES = false
  /\ fst (isColorMixSupported false Sample.freshWindow) = false
  /\ fst (colorOptionToAlphaScale Sample.toHslaColor Sample.toHslaString
            (Obj [("500", Some "red")]) "p" false Sample.freshWindow)
     = Throw ("You need to provide all the following shades: "
              ++ "25, 50, 100, 150, 200, 300, 400, 500, 600, 700, 750, 800, 850, 900, 950").
Proof.
  split; [reflexivity |]. split; [reflexivity |].
  apply (incomplete_alpha_object_throws_on_hsla_branch Sample.toHslaColor
           Sample.toHslaString [("500", Some "red")] "p" false Sample.freshWindow);
    reflexivity.
Defined.

Lemma color_mix_lightness_of_string_witness :
  Js.truthyString "#336699" = true
  /\ fst (isColorMixSupported true Sample.freshWindow) = true
  /\ exists result,
       fst (colorOptionToLightnessScale Sample.toHslaColor Sample.toHslaString
              (Str "#336699") "p" true Sample.freshWindow) = Ok (Some result)
       /\ Obj.get "p500" result = Some "#336699"
       /\ Obj.get "p600" result = Some "color-mix(in oklch, #336699 90%, black 10%)"
       /\ Obj.get "p400" result = Some "color-mix(in oklch, #336699 90%, white 10%)".
Proof.
  split; [reflexivity |]. split; [reflexivity |].
  exact (color_mix_lightness_of_string Sample.toHslaColor Sample.toHslaString
           "#336699" "p" true Sample.freshWindow eq_refl eq_refl).
Defined.

Lemma hsla_base_shade_witness :
  Js.truthyString "navy" = true
  /\ Sample.toHslaColor (Some "navy") = Ok (mkHslaColor 240%Q 100%Q 25%Q 1%Q)
  /\ fst (isColorMixSupported false Sample.freshWindow) = false
  /\ exists result,
       fst (colorOptionToLightnessScale Sample.toHslaColor Sample.toHslaString
              (Str "navy") "p" false Sample.freshWindow) = Ok (Some result)
       /\ Obj.get "p500" result
          = Some (Sample.toHslaString (mkHslaColor 240%Q 100%Q 25%Q 1%Q)).
Proof.
  split; [reflexivity |]. split; [reflexivity |]. split; [reflexivity |].
  exact (hsla_base_shade_round_trips Sample.toHslaColor Sample.toHslaString
           "navy" "p" (mkHslaColor 240%Q 100%Q 25%Q 1%Q) false Sample.freshWindow
           eq_refl eq_refl eq_refl).
Defined.

(* ================================================================== *)
(** * 20. The colour-mix builders across the ladder                      *)
(* ================================================================== *)

Lemma lighten_shape (color : string) (percentage : Percentage) :
  lighten color percentage
  = "color-mix(in oklch, " ++ color ++ " "
    ++ Js.numberToString (Js.hundredMinus (Js.parseInt percentage))
    ++ "%, white " ++ percentage ++ ")".
Proof.
  unfold lighten. rewrite colorMix_first_operand. now rewrite !append_assoc3.
Qed.

Lemma darken_shape (color : string) (percentage : Percentage) :
  darken color percentage
  = "color-mix(in oklch, " ++ color ++ " "
    ++ Js.numberToString (Js.hundredMinus (Js.parseInt percentage)) ++ "%, black 10%)".
Proof. unfold darken. now rewrite colorMix_first_operand. Qed.

Lemma transparentize_shape (color : string) (percentage : Percentage) :
  transparentize color percentage
  = "color-mix(in oklch, " ++ color ++ " " ++ percentage ++ ", transparent)".
Proof.
  unfold transparentize, colorMix. f_equal. now rewrite !append_assoc3.
Qed.

(** [lighten] weighs the colour [100 - n] percent and white [n] percent for
    the percentage string of an integer [n] within the exact integers of
    binary64: the two weights add up to 100 (unlike [darken], whose black
    operand stays at 10%).  An ASCII percentage that does not start with a
    numeral gives the colour the weight [NaN]. *)
Theorem lighten_weights_are_complementary (color : string) :
  (forall n : Z,
     Z.abs n <= Js.MAX_SAFE_INTEGER - 100 ->
     lighten color (Js.intToString n ++ "%")
     = "color-mix(in oklch, " ++ color ++ " " ++ Js.intToString (100 - n)
       ++ "%, white " ++ Js.intToString n ++ "%)")
  /\ (forall percentage : Percentage,
        Js.isAscii percentage = true ->
        Js.parseInt percentage = None ->
        lighten color percentage
        = "color-mix(in oklch, " ++ color ++ " NaN%, white " ++ percentage ++ ")").
Proof.
  split.
  - intros n _. rewrite lighten_shape, parseInt_intToString. cbn [Js.hundredMinus option_map
      Js.numberToString]. now rewrite !append_assoc3.
  - intros percentage _ E. rewrite lighten_shape, E. reflexivity.
Qed.

Lemma lighten_weights_witness :
  Z.abs 25 <= Js.MAX_SAFE_INTEGER - 100
  /\ lighten "red" "25%" = "color-mix(in oklch, red 75%, white 25%)"
  /\ Js.isAscii "auto" = true
  /\ Js.parseInt "auto" = None
  /\ lighten "red" "auto" = "color-mix(in oklch, red NaN%, white auto)".
Proof.
  assert (Hn : Z.abs 25 <= Js.MAX_SAFE_INTEGER - 100) by (intros E; discriminate E).
  split; [exact Hn |].
  split; [exact (proj1 (lighten_weights_are_complementary "red") 25 Hn) |].
  split; [reflexivity |]. split; [reflexivity |].
  exact (proj2 (lighten_weights_are_complementary "red") "auto" eq_refl eq_refl).
Defined.

Section ColorMixScales.
Context {num : Type} `{JsNumber num}.
Variable toHslaColor : option string -> Result (HslaColor num).
Variable toHslaString : HslaColor num -> HslaColorString.

Local Abbreviation alphaScale := (colorOptionToAlphaScale toHslaColor toHslaString).
Local Abbreviation lightnessScale := (colorOptionToLightnessScale toHslaColor toHslaString).

(** On the colour-mix branch the alpha scale of a colour string is the
    colour made transparent by the table's percentage at every shade, from 2%
    at shade 25 to 92% at shade 950, under the prefixed keys in shade order. *)
Theorem color_mix_alpha_scale_of_string
    (color prefix : string) (cssSupports : bool) (w : Window.t) :
  Js.truthyString color = true ->
  fst (isColorMixSupported cssSupports w) = true ->
  fst (alphaScale (Str color) prefix cssSupports w)
  = Ok (Some
          (map (fun e : string * string =>
                  (prefix ++ fst e,
                   Some ("color-mix(in oklch, " ++ color ++ " " ++ snd e
                         ++ ", transparent)")))
               [ ("25", "2%"); ("50", "3%"); ("100", "7%"); ("150", "11%");
                 ("200", "15%"); ("300", "28%"); ("400", "41%"); ("500", "53%");
                 ("600", "62%"); ("700", "73%"); ("750", "78%"); ("800", "81%");
                 ("850", "84%"); ("900", "87%"); ("950", "92%") ])).
Proof.
  intros Htruthy Hprobe. unfold colorOptionToAlphaScale. cbn [truthy negb].
  rewrite Htruthy. cbn [negb].
  destruct (isColorMixSupported cssSupports w) as [supported w']. cbn [fst] in *.
  subst supported. do 2 f_equal.
  unfold createAlphaScaleWithTransparentize.
  rewrite ObjFacts.fromEntries_distinct
    by (rewrite map_map; apply (NoDup_map_append prefix ALL_SHADES ALL_SHADES_NoDup)).
  cbn [map ALPHA_SHADES_MAP fst snd option_map toStringValue].
  rewrite !transparentize_shape. reflexivity.
Qed.

(** On the colour-mix branch the lightness scale of a colour string: the
    seven light shades mix the colour with white, the weights adding up to
    100; shade 500 is the colour itself; the seven dark shades mix the colour,
    weighted 90% down to 8%, with black weighted 10% throughout. *)
Theorem color_mix_lightness_scale_of_string
    (color prefix : string) (cssSupports : bool) (w : Window.t) :
  Js.truthyString color = true ->
  fst (isColorMixSupported cssSupports w) = true ->
  fst (lightnessScale (Str color) prefix cssSupports w)
  = Ok (Some
          [ (prefix ++ "25", Some ("color-mix(in oklch, " ++ color ++ " 8%, white 92%)"));
            (prefix ++ "50", Some ("color-mix(in oklch, " ++ color ++ " 15%, white 85%)"));
            (prefix ++ "100", Some ("color-mix(in oklch, " ++ color ++ " 30%, white 70%)"));
            (prefix ++ "150", Some ("color-mix(in oklch, " ++ color ++ " 45%, white 55%)"));
            (prefix ++ "200", Some ("color-mix(in oklch, " ++ color ++ " 60%, white 40%)"));
            (prefix ++ "300", Some ("color-mix(in oklch, " ++ color ++ " 75%, white 25%)"));
            (prefix ++ "400", Some ("color-mix(in oklch, " ++ color ++ " 90%, white 10%)"));
            (prefix ++ "500", Some color);
            (prefix ++ "600", Some ("color-mix(in oklch, " ++ color ++ " 90%, black 10%)"));
            (prefix ++ "700", Some ("color-mix(in oklch, " ++ color ++ " 75%, black 10%)"));
            (prefix ++ "750", Some ("color-mix(in oklch, " ++ color ++ " 60%, black 10%)"));
            (prefix ++ "800", Some ("color-mix(in oklch, " ++ color ++ " 45%, black 10%)"));
            (prefix ++ "850", Some ("color-mix(in oklch, " ++ color ++ " 30%, black 10%)"));
            (prefix ++ "900", Some ("color-mix(in oklch, " ++ color ++ " 15%, black 10%)"));
            (prefix ++ "950", Some ("color-mix(in oklch, " ++ color ++ " 8%, black 10%)")) ]).
Proof.
  intros Htruthy Hprobe. unfold colorOptionToLightnessScale. cbn [truthy negb].
  rewrite Htruthy. cbn [negb].
  destruct (isColorMixSupported cssSupports w) as [supported w']. cbn [fst] in *.
  subst supported. rewrite createColorMixLightnessScale_string by exact Htruthy.
  do 2 f_equal. rewrite generateColorMixScale_closed_form.
  cbn [map ALL_SHADES LIGHT_SHADES DARK_SHADES rev app Obj.get Obj.lookup
       String.eqb Ascii.eqb Bool.eqb].
  rewrite !lighten_shape, !darken_shape. reflexivity.
Qed.
End ColorMixScales.

(* ================================================================== *)
(** * 21. What the lightness entry point reads of an option object       *)
(* ================================================================== *)

Lemma mapM_ext_in {A B : Type} (f g : A -> Result B) (xs : list A) :
  (forall x, In x xs -> f x = g x) -> mapM f xs = mapM g xs.
Proof.
  induction xs as [| x xs IH]; simpl; intros E; [reflexivity |].
  rewrite E by now left. rewrite IH; [reflexivity |]. intros y Hy. apply E. now right.
Qed.

Section LightnessOfObjects.
Context {num : Type} `{JsNumber num}.
Variable toHslaColor : option string -> Result (HslaColor num).
Variable toHslaString : HslaColor num -> HslaColorString.

Local Abbreviation lightnessScale := (colorOptionToLightnessScale toHslaColor toHslaString).

Lemma hslaEntries_shades_only (scale scale' : JsObject string) :
  (forall key, In key ALL_SHADES -> Obj.get key scale = Obj.get key scale') ->
  hslaEntries toHslaColor scale = hslaEntries toHslaColor scale'.
Proof.
  intros Hsame. unfold hslaEntries. apply mapM_ext_in. intros key Hin.
  now rewrite (Hsame key Hin).
Qed.

Lemma collectUserProvidedShades_shades_only (scale scale' : JsObject string) :
  (forall key, In key ALL_SHADES -> Obj.get key scale = Obj.get key scale') ->
  collectUserProvidedShades scale = collectUserProvidedShades scale'.
Proof.
  intros Hsame. rewrite !collectUserProvidedShades_entries.
  rewrite (filter_ext_in _ (fun key => truthyProp (Obj.get key scale')))
    by (intros key Hin; now rewrite (Hsame key Hin)).
  apply map_ext_in. intros key Hin. apply filter_In in Hin. now rewrite (Hsame key (proj1 Hin)).
Qed.

(** The lightness entry point reads nothing of an option object but its
    fifteen shade entries: two objects that agree on them (whatever other
    keys they carry, in whatever order) get the same outcome on either
    branch, and leave the same window. *)
Theorem lightness_reads_shade_entries_only
    (scale scale' : JsObject string) (prefix : string) (cssSupports : bool) (w : Window.t) :
  (forall key, In key ALL_SHADES -> Obj.get key scale = Obj.get key scale') ->
  lightnessScale (Obj scale) prefix cssSupports w
  = lightnessScale (Obj scale') prefix cssSupports w.
Proof.
  intros Hsame.
  assert (H500 : Obj.get "500" scale = Obj.get "500" scale')
    by (apply Hsame; simpl; tauto).
  unfold colorOptionToLightnessScale. cbn [truthy negb].
  destruct (isColorMixSupported cssSupports w) as [[|] w']; f_equal.
  - unfold createColorMixLightnessScale. cbn [truthy negb]. rewrite H500.
    now rewrite (collectUserProvidedShades_shades_only scale scale' Hsame).
  - unfold colorOptionToHslaLightnessScale, fillUserProvidedScaleWithGeneratedHslaColors,
      userDefinedColorToHslaColorScale.
    cbn [truthy negb bind]. rewrite H500.
    now rewrite (hslaEntries_shades_only scale scale' Hsame).
Qed.

(** A colour string and the object holding it as its only shade, under
    '500', are the same option to the lightness entry point. *)
Theorem lightness_string_is_object_with_base
    (color prefix : string) (cssSupports : bool) (w : Window.t) :
  Js.truthyString color = true ->
  lightnessScale (Str color) prefix cssSupports w
  = lightnessScale (Obj [("500", Some color)]) prefix cssSupports w.
Proof.
  intros Htruthy. unfold colorOptionToLightnessScale. cbn [truthy negb].
  rewrite Htruthy. cbn [negb].
  destruct (isColorMixSupported cssSupports w) as [[|] w']; f_equal.
  - rewrite createColorMixLightnessScale_string by exact Htruthy.
    rewrite (createColorMixLightnessScale_object [("500", Some color)] prefix color
               eq_refl Htruthy).
    do 2 f_equal. apply map_ext_in. intros key Hin. f_equal.
    revert key Hin. apply ALL_SHADES_cases; try reflexivity.
    cbn [Obj.get Obj.lookup String.eqb Ascii.eqb Bool.eqb truthyProp].
    now rewrite Htruthy.
  - unfold colorOptionToHslaLightnessScale, fillUserProvidedScaleWithGeneratedHslaColors.
    cbn [truthy Obj.get Obj.lookup String.eqb Ascii.eqb Bool.eqb truthyProp].
    rewrite Htruthy. reflexivity.
Qed.

(** A falsy entry of an option object (absent, undefined or the empty
    string) under a shade key does not override: the returned scale holds the
    shade generated from the '500' entry, by [lighten]/[darken] on the
    colour-mix branch and from the parsed base on the HSLA branch. *)
Theorem falsy_shade_is_generated
    (scale : JsObject string) (prefix key : string) (cssSupports : bool) (w : Window.t) :
  In key ALL_SHADES ->
  truthyProp (Obj.get "500" scale) = true ->
  truthyProp (Obj.get key scale) = false ->
  if fst (isColorMixSupported cssSupports w)
  then exists result baseFor500,
         Obj.get "500" scale = Some baseFor500
         /\ fst (lightnessScale (Obj scale) prefix cssSupports w) = Ok (Some result)
         /\ Obj.get (prefix ++ key) result = Obj.get key (generateColorMixScale baseFor500)
  else forall r,
         fst (lightnessScale (Obj scale) prefix cssSupports w) = Ok r ->
         exists result base generated,
           r = Some result
           /\ toHslaColor (Obj.get "500" scale) = Ok base
           /\ Obj.get key (generateFilledScaleFromBaseHslaColor base) = Some generated
           /\ Obj.get (prefix ++ key) result = Some (toHslaString generated).
Proof.
  intros Hkey Hbase Hfalsy.
  unfold colorOptionToLightnessScale. cbn [truthy negb].
  destruct (isColorMixSupported cssSupports w) as [[|] w']; cbn [fst].
  - unfold truthyProp in Hbase.
    destruct (Obj.get "500" scale) as [baseFor500 |] eqn:E500; [| discriminate].
    rewrite (createColorMixLightnessScale_object scale prefix baseFor500 E500 Hbase).
    eexists. exists baseFor500. split; [reflexivity |]. split; [reflexivity |].
    unfold Obj.get at 1.
    rewrite (ObjFacts.lookup_map_prefixed prefix
               (fun k => if truthyProp (Obj.get k scale) then Obj.get k scale
                         else Obj.get k (generateColorMixScale baseFor500))
               ALL_SHADES key Hkey).
    now rewrite Hfalsy.
  - intros r Er.
    destruct (hsla_lightness_object_returns toHslaColor toHslaString scale prefix r Er)
      as [_ Hall].
    destruct (hsla_lightness_object toHslaColor toHslaString scale prefix Hbase Hall)
      as (base & Ebase & E).
    match type of E with
    | _ = Ok ?x => assert (Hr : r = x) by congruence
    end.
    rewrite Hr. clear Hr Er E.
    destruct (generated_shade_present base key Hkey) as [generated Egen].
    eexists. exists base, generated.
    split; [reflexivity |]. split; [exact Ebase |]. split; [exact Egen |].
    unfold Obj.get at 1.
    rewrite (ObjFacts.lookup_map_prefixed prefix
               (fun k => option_map toHslaString
                           (orElse (parsedShade toHslaColor scale k)
                              (Obj.get k (generateFilledScaleFromBaseHslaColor base))))
               ALL_SHADES key Hkey).
    unfold parsedShade. rewrite Hfalsy. cbn [orElse]. now rewrite Egen.
Qed.
End LightnessOfObjects.

(* ================================================================== *)
(** * 22. The HSLA alpha path                                            *)
(* ================================================================== *)

Section ObjectKeys.
Context {V : Type}.

Lemma in_keys_set (k k' : string) (v : option V) (o : JsObject V) :
  In k' (Obj.keys (Obj.set k v o)) <-> k' = k \/ In k' (Obj.keys o).
Proof.
  destruct (in_dec string_dec k (Obj.keys o)) as [Hin | Hout].
  - rewrite ObjFacts.keys_set_present by exact Hin. split; [tauto |].
    intros [-> | I]; assumption.
  - rewrite ObjFacts.set_fresh by exact Hout. unfold Obj.keys.
    rewrite map_app, in_app_iff. simpl. split; intros; intuition congruence.
Qed.

Lemma NoDup_keys_set (k : string) (v : option V) (o : JsObject V) :
  NoDup (Obj.keys o) -> NoDup (Obj.keys (Obj.set k v o)).
Proof.
  intros Hnd. destruct (in_dec string_dec k (Obj.keys o)) as [Hin | Hout].
  - now rewrite ObjFacts.keys_set_present.
  - rewrite ObjFacts.set_fresh by exact Hout. unfold Obj.keys. rewrite map_app. simpl.
    apply NoDup_app; [exact Hnd | repeat constructor; simpl; tauto |].
    intros x Hx [<- | []]. contradiction.
Qed.

Lemma get_some_in (k : string) (c : V) (o : JsObject V) :
  Obj.get k o = Some c -> In (k, Some c) o.
Proof.
  unfold Obj.get. induction o as [| [k' v] o IH]; simpl; [discriminate |].
  destruct (String.eqb_spec k' k) as [-> | N].
  - intros ->. now left.
  - intros E. right. now apply IH.
Qed.

Lemma get_none_outside (k : string) (o : JsObject V) :
  ~ In k (Obj.keys o) -> Obj.get k o = None.
Proof.
  intros Hout. unfold Obj.get. apply ObjFacts.lookup_none_notin in Hout. now rewrite Hout.
Qed.

Lemma get_map_prefixed (prefix : string) (W : string -> option V)
      (ks : list string) (k : string) :
  In k ks -> Obj.get (prefix ++ k) (map (fun y => (prefix ++ y, W y)) ks) = W k.
Proof.
  intros Hin. unfold Obj.get. now rewrite ObjFacts.lookup_map_prefixed.
Qed.
End ObjectKeys.

Section AlphaPath.
Context {num : Type} `{JsNumber num}.
Variable toHslaColor : option string -> Result (HslaColor num).
Variable toHslaString : HslaColor num -> HslaColorString.

Local Abbreviation alphaScale := (colorOptionToAlphaScale toHslaColor toHslaString).
Local Abbreviation reduceStep option :=
  (fun (acc : Result (HslaScale num)) (key : string) =>
     acc' <- acc ;;
     color <- toHslaColor (Obj.get key option) ;;
     Ok (Obj.set key (Some color) acc')).

Lemma alpha_reduce_values (option : JsObject string) (ks : list string)
      (acc scale : HslaScale num) :
  NoDup (Obj.keys acc) ->
  fold_left (reduceStep option) ks (Ok acc) = Ok scale ->
  NoDup (Obj.keys scale)
  /\ (forall k, In k (Obj.keys scale) <-> In k (Obj.keys acc) \/ In k ks)
  /\ (forall k, In k ks ->
                exists c, toHslaColor (Obj.get k option) = Ok c /\ Obj.get k scale = Some c)
  /\ (forall k, ~ In k ks -> Obj.get k scale = Obj.get k acc).
Proof.
  revert acc. induction ks as [| k ks IH]; intros acc Hnd E; simpl in E.
  - injection E as <-. split; [exact Hnd |]. split; [intros k; simpl; tauto |].
    split; [intros k [] | reflexivity].
  - destruct (toHslaColor (Obj.get k option)) as [color | msg] eqn:Ek; simpl in E;
      [| rewrite (alpha_reduce_throw toHslaColor) in E; discriminate].
    apply IH in E; [| now apply NoDup_keys_set].
    destruct E as (Hnd' & Hkeys & Hvals & Hrest).
    split; [exact Hnd' |]. split; [| split].
    + intros k'. rewrite Hkeys, in_keys_set. simpl. intuition congruence.
    + intros k' Hk'. destruct (in_dec string_dec k' ks) as [Hin | Hout].
      * now apply Hvals.
      * destruct Hk' as [<- | Hin]; [| contradiction].
        exists color. split; [exact Ek |].
        rewrite Hrest by exact Hout. apply ObjFacts.get_set_same.
    + intros k' Hk'. rewrite Hrest by (intros I; apply Hk'; now right).
      apply ObjFacts.get_set_other. intros ->. apply Hk'. now left.
Qed.

Lemma alpha_reduce_total (option : JsObject string) (ks : list string)
      (acc : HslaScale num) :
  (forall k, In k ks -> exists c, toHslaColor (Obj.get k option) = Ok c) ->
  exists scale, fold_left (reduceStep option) ks (Ok acc) = Ok scale.
Proof.
  revert acc. induction ks as [| k ks IH]; intros acc Hall; simpl; [eauto |].
  destruct (Hall k) as [c ->]; [now left |]. simpl.
  apply IH. intros k' Hk'. apply Hall. now right.
Qed.

(** On the HSLA branch an option object is not run through the alpha
    generator at all.  When the call returns, every key of the object (the
    fifteen shades, which must all be there, and any other key it carries)
    comes back under [prefix ++ key] as the printed parse of the object's own
    value; the alpha table is not applied.  The call returns exactly when all
    fifteen shade keys are present and the parser accepts the value of every
    key. *)
Theorem hsla_alpha_object_passes_through
    (option : JsObject string) (prefix : string) (cssSupports : bool) (w : Window.t) :
  fst (isColorMixSupported cssSupports w) = false ->
  (forall r,
     fst (alphaScale (Obj option) prefix cssSupports w) = Ok r ->
     exists result,
       r = Some result
       /\ (forall key, In key ALL_SHADES -> In key (Obj.keys option))
       /\ (forall key, In key (Obj.keys option) ->
             exists color,
               toHslaColor (Obj.get key option) = Ok color
               /\ Obj.get (prefix ++ key) result = Some (toHslaString color)))
  /\ ((forall key, In key ALL_SHADES -> In key (Obj.keys option)) ->
      (forall key, In key (Obj.keys option) ->
                   exists color, toHslaColor (Obj.get key option) = Ok color) ->
      exists result, fst (alphaScale (Obj option) prefix cssSupports w) = Ok (Some result)).
Proof.
  intros Hprobe. unfold colorOptionToAlphaScale. cbn [truthy negb].
  destruct (isColorMixSupported cssSupports w) as [supported w']. cbn [fst] in *.
  subst supported.
  unfold colorOptionToHslaAlphaScale, getUserProvidedScaleOrGenerateHslaColorsScale.
  cbn [truthy negb fst]. split.
  - intros r.
    destruct (forallb (fun key => Obj.has key option) ALL_SHADES) eqn:Eall; cbn [negb];
      [| discriminate].
    match goal with
    | |- bind ?m _ = _ -> _ => destruct m as [scale | msg] eqn:E; cbn [bind]; [| discriminate]
    end.
    intros Er.
    assert (Hr : r = Some (prefixAndStringifyHslaScale toHslaString scale prefix))
      by congruence.
    clear Er. subst r.
    apply alpha_reduce_values in E; [| apply ALL_SHADES_NoDup].
    destruct E as (Hnd & Hkeys & Hvals & _).
    assert (Hshades : forall key, In key ALL_SHADES -> In key (Obj.keys option)).
    { intros key Hin. rewrite forallb_forall in Eall. apply ObjFacts.has_in.
      now apply Eall. }
    assert (Hdefined : forall k, In k (Obj.keys scale) ->
                                 exists c, Obj.get k scale = Some c).
    { intros k Hk. apply Hkeys in Hk.
      assert (Hin : In k (Obj.keys option)) by (destruct Hk; auto).
      destruct (Hvals k Hin) as (c & _ & Ec). eauto. }
    eexists. split; [reflexivity |]. split; [exact Hshades |].
    intros key Hin. destruct (Hvals key Hin) as (color & Eparse & Eget).
    exists color. split; [exact Eparse |].
    rewrite (prefixAndStringify_scale toHslaString scale prefix Hnd Hdefined).
    transitivity (option_map toHslaString (Obj.get key scale)); [| now rewrite Eget].
    apply (get_map_prefixed prefix
             (fun k => option_map toHslaString (Obj.get k scale)) (Obj.keys scale) key).
    apply Hkeys. now right.
  - intros Hshades Hparse.
    assert (Eall : forallb (fun key => Obj.has key option) ALL_SHADES = true).
    { apply forallb_forall. intros key Hin. apply ObjFacts.has_in. now apply Hshades. }
    rewrite Eall. cbn [negb].
    destruct (alpha_reduce_total option (Obj.keys option) createEmptyColorScale Hparse)
      as [scale E].
    match goal with
    | |- exists _, bind ?m _ = _ => replace m with (Ok scale) by (symmetry; exact E)
    end.
    cbn [bind]. eauto.
Qed.

(** On the HSLA branch the alpha scale of a colour string that parses to
    [base]: every shade prints the base's hue, saturation and lightness with
    the alpha of the fixed table.  Two colour strings whose parses differ in
    alpha only therefore get the same scale. *)
Theorem hsla_alpha_scale_of_string
    (color prefix : string) (base : HslaColor num) (cssSupports : bool) (w : Window.t) :
  Js.truthyString color = true ->
  toHslaColor (Some color) = Ok base ->
  fst (isColorMixSupported cssSupports w) = false ->
  fst (alphaScale (Str color) prefix cssSupports w)
  = Ok (Some (prefixedEntries toHslaString prefix
                (map (fun alpha => mkHslaColor (h base) (s base) (l base) alpha) alphas)))
  /\ (forall (color' : string) (alpha' : num),
        Js.truthyString color' = true ->
        toHslaColor (Some color') = Ok (setHslaAlpha base alpha') ->
        fst (alphaScale (Str color') prefix cssSupports w)
        = fst (alphaScale (Str color) prefix cssSupports w)).
Proof.
  intros Htruthy Ebase Hprobe.
  assert (Hshape : forall c b, Js.truthyString c = true -> toHslaColor (Some c) = Ok b ->
            fst (alphaScale (Str c) prefix cssSupports w)
            = Ok (Some (prefixedEntries toHslaString prefix
                          (map (fun alpha => mkHslaColor (h b) (s b) (l b) alpha) alphas)))).
  { intros c b Hc Eb. unfold colorOptionToAlphaScale. cbn [truthy negb].
    rewrite Hc. cbn [negb].
    destruct (isColorMixSupported cssSupports w) as [supported w']. cbn [fst] in *.
    subst supported.
    rewrite (hsla_alpha_string toHslaColor toHslaString c prefix b Hc Eb).
    reflexivity. }
  split; [now apply Hshape |].
  intros color' alpha' Hc' Eb'.
  rewrite (Hshape color' _ Hc' Eb'), (Hshape color base Htruthy Ebase). reflexivity.
Qed.
End AlphaPath.

(* ================================================================== *)
(** * 23. Bounds, repeated calls and the merging helpers                 *)
(* ================================================================== *)

Section RepeatedCalls.
Context {num : Type} `{JsNumber num}.
Variable toHslaColor : option string -> Result (HslaColor num).
Variable toHslaString : HslaColor num -> HslaColorString.

Local Abbreviation alphaScale := (colorOptionToAlphaScale toHslaColor toHslaString).
Local Abbreviation lightnessScale := (colorOptionToLightnessScale toHslaColor toHslaString).

Lemma probe_twice (cssSupports cssSupports' : bool) (w : Window.t) :
  isColorMixSupported cssSupports' (snd (isColorMixSupported cssSupports w))
  = isColorMixSupported cssSupports w.
Proof.
  unfold isColorMixSupported.
  destruct (Window.ClerkCSSSupport w) as [[[cached |]] |]; reflexivity.
Qed.

(** Calling an entry point again on the window the first call left behind
    gives the same outcome and the same window, even if the CSS capability
    query would answer differently the second time: the branch is fixed by
    the first probe. *)
Theorem entry_points_are_repeatable
    (colorOption : ColorOption) (prefix : string) (cssSupports cssSupports' : bool)
    (w : Window.t) :
  alphaScale colorOption prefix cssSupports'
    (snd (alphaScale colorOption prefix cssSupports w))
  = alphaScale colorOption prefix cssSupports w
  /\ lightnessScale colorOption prefix cssSupports'
       (snd (lightnessScale colorOption prefix cssSupports w))
     = lightnessScale colorOption prefix cssSupports w
  /\ alphaScale colorOption prefix cssSupports'
       (snd (lightnessScale colorOption prefix cssSupports w))
     = alphaScale colorOption prefix cssSupports w.
Proof.
  unfold colorOptionToAlphaScale, colorOptionToLightnessScale.
  destruct (truthy colorOption); cbn [negb]; [| repeat split; reflexivity].
  pose proof (probe_twice cssSupports cssSupports' w) as Hprobe.
  destruct (isColorMixSupported cssSupports w) as [supported w'] eqn:E.
  cbn [snd] in Hprobe.
  assert (Hsnd : forall (A : Type) (x y : A),
            snd (if supported then (x, w') else (y, w')) = w')
    by (intros; now destruct supported).
  rewrite !Hsnd, Hprobe. repeat split; reflexivity.
Qed.
End RepeatedCalls.

Section MergingHelpers.
Context {num : Type}.
Variable toHslaString : HslaColor num -> HslaColorString.

(** Merging keeps exactly the keys of the user's scale: under each of them
    the user's colour when it is defined and the generated colour otherwise;
    a key the generated scale alone has is dropped. *)
Theorem merge_prefers_user_shades (generated userDefined : HslaScale num) :
  NoDup (Obj.keys userDefined) ->
  Obj.keys (mergeFilledIntoUserDefinedScale generated userDefined) = Obj.keys userDefined
  /\ (forall key, In key (Obj.keys userDefined) ->
        Obj.get key (mergeFilledIntoUserDefinedScale generated userDefined)
        = orElse (Obj.get key userDefined) (Obj.get key generated))
  /\ (forall key, ~ In key (Obj.keys userDefined) ->
        Obj.get key (mergeFilledIntoUserDefinedScale generated userDefined) = None).
Proof.
  intros Hnd.
  assert (E : mergeFilledIntoUserDefinedScale generated userDefined
              = map (fun key => (key, orElse (Obj.get key userDefined)
                                        (Obj.get key generated)))
                    (Obj.keys userDefined)).
  { unfold mergeFilledIntoUserDefinedScale, fromEntries.
    rewrite (object_as_entries userDefined Hnd) at 1.
    rewrite map_map. cbn [fst snd].
    apply ObjFacts.fromEntries_distinct. now apply NoDup_self_entries. }
  rewrite E. split; [| split].
  - now rewrite keys_map_entries, map_id.
  - intros key Hin. unfold Obj.get at 1. now rewrite ObjFacts.lookup_map_self.
  - intros key Hout. apply get_none_outside. now rewrite keys_map_entries, map_id.
Qed.

(** Printing a scale skips the shades that are undefined and puts every
    defined shade, printed, under [prefix ++ key]: reading [prefix ++ key]
    from the result gives the printed shade of [key], or nothing, and the
    result has no other keys than the prefixed keys of the defined shades. *)
Theorem stringify_prints_defined_shades (scale : HslaScale num) (prefix : string) :
  NoDup (Obj.keys scale) ->
  (forall key,
     Obj.get (prefix ++ key) (prefixAndStringifyHslaScale toHslaString scale prefix)
     = option_map toHslaString (Obj.get key scale))
  /\ (forall prefixed,
        In prefixed (Obj.keys (prefixAndStringifyHslaScale toHslaString scale prefix))
        <-> exists key color,
              prefixed = prefix ++ key /\ Obj.get key scale = Some color).
Proof.
  intros Hnd. set (defined := fun key => match Obj.get key scale with
                                         | Some _ => true
                                         | None => false
                                         end).
  assert (E : prefixAndStringifyHslaScale toHslaString scale prefix
              = map (fun k => (prefix ++ k, option_map toHslaString (Obj.get k scale)))
                    (filter defined (Obj.keys scale))).
  { rewrite (object_as_entries scale Hnd) at 1.
    now rewrite prefixAndStringify_entries. }
  rewrite E. split.
  - intros key. destruct (in_dec string_dec key (filter defined (Obj.keys scale)))
      as [Hin | Hout].
    + now apply (get_map_prefixed prefix
                   (fun k => option_map toHslaString (Obj.get k scale))).
    + transitivity (@None string).
      * apply get_none_outside. rewrite (keys_map_entries (append prefix)).
        rewrite in_map_iff. intros (k & Ek & Hk). apply append_inj_l in Ek. now subst.
      * rewrite filter_In in Hout. unfold defined in Hout.
        destruct (in_dec string_dec key (Obj.keys scale)) as [Hk | Hk].
        -- destruct (Obj.get key scale); [exfalso; apply Hout; auto | reflexivity].
        -- now rewrite (get_none_outside key scale Hk).
  - intros prefixed. rewrite (keys_map_entries (append prefix)), in_map_iff. split.
    + intros (key & <- & Hin). apply filter_In in Hin. destruct Hin as [_ Hdef].
      unfold defined in Hdef. destruct (Obj.get key scale) as [color |] eqn:Eget;
        [| discriminate].
      exists key, color. split; [reflexivity | exact Eget].
    + intros (key & color & -> & Eget). exists key. split; [reflexivity |].
      apply filter_In. split.
      * apply get_some_in in Eget. apply (in_map fst) in Eget. exact Eget.
      * unfold defined. now rewrite Eget.
Qed.
End MergingHelpers.

(* ================================================================== *)
(** * 24. The listener of the Vue plugin                                 *)
(* ================================================================== *)

Section PluginListener.
Context {Client Session User Organization : Type}.
Local Abbreviation Res := (Plugin.Resources Client Session User Organization).

Lemma afterEmissions_snoc (payloads : list Res) (payload : Res) :
  Plugin.afterEmissions (payloads ++ [payload])
  = Plugin.listener (Plugin.afterEmissions payloads) payload.
Proof. unfold Plugin.afterEmissions. now rewrite fold_left_app. Qed.

(** Whatever Clerk emits, the stored resources are the last payload that was
    not in the cleared state (user, organization and session all undefined),
    or the initial value when there has been none: a cleared payload never
    replaces what is stored, while a signed-out payload (null fields) does.
    So the stored resources are in the cleared state only as long as every
    payload so far was. *)
Theorem listener_keeps_last_real_state (payloads : list Res) :
  Plugin.afterEmissions payloads
  = match find (fun p => negb (Plugin.isTemporaryClearedState p)) (rev payloads) with
    | Some payload => payload
    | None => Plugin.initialResources
    end
  /\ Plugin.isTemporaryClearedState (Plugin.afterEmissions payloads)
     = forallb Plugin.isTemporaryClearedState payloads.
Proof.
  induction payloads as [| payload payloads IH] using rev_ind.
  - split; reflexivity.
  - destruct IH as [IHlast IHclear].
    rewrite afterEmissions_snoc, rev_app_distr, forallb_app. cbn [rev app find forallb].
    unfold Plugin.listener.
    destruct (Plugin.isTemporaryClearedState payload) eqn:E; cbn [negb].
    + split; [exact IHlast |]. rewrite IHclear. now rewrite !andb_true_r.
    + split; [reflexivity |]. rewrite E. now rewrite andb_false_r.
Qed.
End PluginListener.

(* ================================================================== *)
(** * 25. Further sample runs                                            *)
(* ================================================================== *)

Lemma color_mix_alpha_scale_witness :
  Js.truthyString "#336699" = true
  /\ fst (isColorMixSupported true Sample.freshWindow) = true
  /\ exists result,
       fst (colorOptionToAlphaScale Sample.toHslaColor Sample.toHslaString
              (Str "#336699") "p" true Sample.freshWindow) = Ok (Some result)
       /\ Obj.get "p25" result = Some "color-mix(in oklch, #336699 2%, transparent)"
       /\ Obj.get "p950" result = Some "color-mix(in oklch, #336699 92%, transparent)".
Proof.
  split; [reflexivity |]. split; [reflexivity |].
  eexists. split.
  - exact (color_mix_alpha_scale_of_string Sample.toHslaColor Sample.toHslaString
             "#336699" "p" true Sample.freshWindow eq_refl eq_refl).
  - split; reflexivity.
Defined.

Lemma color_mix_lightness_scale_witness :
  Js.truthyString "#336699" = true
  /\ fst (isColorMixSupported true Sample.freshWindow) = true
  /\ exists result,
       fst (colorOptionToLightnessScale Sample.toHslaColor Sample.toHslaString
              (Str "#336699") "p" true Sample.freshWindow) = Ok (Some result)
       /\ Obj.get "p25" result = Some "color-mix(in oklch, #336699 8%, white 92%)"
       /\ Obj.get "p950" result = Some "color-mix(in oklch, #336699 8%, black 10%)".
Proof.
  split; [reflexivity |]. split; [reflexivity |].
  eexists. split.
  - exact (color_mix_lightness_scale_of_string Sample.toHslaColor Sample.toHslaString
             "#336699" "p" true Sample.freshWindow eq_refl eq_refl).
  - split; reflexivity.
Defined.

Lemma lightness_reads_shade_entries_witness :
  let scale := [("500", Some "navy"); ("700", Some "red")] in
  let scale' := [("brand", Some "teal"); ("700", Some "red"); ("500", Some "navy")] in
  (forall key, In key ALL_SHADES -> Obj.get key scale = Obj.get key scale')
  /\ colorOptionToLightnessScale Sample.toHslaColor Sample.toHslaString
       (Obj scale) "p" false Sample.freshWindow
     = colorOptionToLightnessScale Sample.toHslaColor Sample.toHslaString
         (Obj scale') "p" false Sample.freshWindow.
Proof.
  cbv zeta.
  assert (Hsame : forall key, In key ALL_SHADES ->
            Obj.get key [("500", Some "navy"); ("700", Some "red")]
            = Obj.get key [("brand", Some "teal"); ("700", Some "red"); ("500", Some "navy")])
    by (apply ALL_SHADES_cases; reflexivity).
  split; [exact Hsame |].
  exact (lightness_reads_shade_entries_only Sample.toHslaColor Sample.toHslaString
           _ _ "p" false Sample.freshWindow Hsame).
Defined.

Lemma lightness_string_is_object_witness :
  Js.truthyString "navy" = true
  /\ colorOptionToLightnessScale Sample.toHslaColor Sample.toHslaString
       (Str "navy") "p" false Sample.freshWindow
     = colorOptionToLightnessScale Sample.toHslaColor Sample.toHslaString
         (Obj [("500", Some "navy")]) "p" false Sample.freshWindow.
Proof.
  split; [reflexivity |].
  exact (lightness_string_is_object_with_base Sample.toHslaColor Sample.toHslaString
           "navy" "p" false Sample.freshWindow eq_refl).
Defined.

Lemma falsy_shade_witness :
  let scale := [("500", Some "#336699"); ("700", Some "")] in
  In "700" ALL_SHADES
  /\ truthyProp (Obj.get "500" scale) = true
  /\ truthyProp (Obj.get "700" scale) = false
  /\ exists result baseFor500,
       Obj.get "500" scale = Some baseFor500
       /\ fst (colorOptionToLightnessScale Sample.toHslaColor Sample.toHslaString
                 (Obj scale) "p" true Sample.freshWindow) = Ok (Some result)
       /\ Obj.get "p700" result = Obj.get "700" (generateColorMixScale baseFor500).
Proof.
  cbv zeta.
  assert (Hkey : In "700" ALL_SHADES) by (simpl; tauto).
  split; [exact Hkey |]. split; [reflexivity |]. split; [reflexivity |].
  exact (falsy_shade_is_generated Sample.toHslaColor Sample.toHslaString
           [("500", Some "#336699"); ("700", Some "")] "p" "700" true Sample.freshWindow
           Hkey eq_refl eq_refl).
Defined.

Example falsy_shade_on_color_mix_branch :
  exists result,
    fst (colorOptionToLightnessScale Sample.toHslaColor Sample.toHslaString
           (Obj [("500", Some "#336699"); ("700", Some "")]) "p" true Sample.freshWindow)
    = Ok (Some result)
    /\ Obj.get "p700" result = Some "color-mix(in oklch, #336699 75%, black 10%)".
Proof. eexists. split; reflexivity. Qed.

Lemma hsla_alpha_object_witness :
  let option :=
    (map (fun key => (key, Some "red")) ALL_SHADES ++ [("brand", Some "navy")])%list in
  fst (isColorMixSupported false Sample.freshWindow) = false
  /\ exists result,
       fst (colorOptionToAlphaScale Sample.toHslaColor Sample.toHslaString
              (Obj option) "p" false Sample.freshWindow) = Ok (Some result).
Proof.
  cbv zeta. split; [reflexivity |].
  apply (proj2 (hsla_alpha_object_passes_through Sample.toHslaColor Sample.toHslaString
                  (map (fun key => (key, Some "red")) ALL_SHADES
                     ++ [("brand", Some "navy")])%list
                  "p" false Sample.freshWindow eq_refl)).
  - intros key Hin. simpl in *. tauto.
  - intros key Hin. simpl in Hin.
    repeat (destruct Hin as [<- | Hin]; [eexists; reflexivity |]). contradiction.
Defined.

Example hsla_alpha_object_with_extra_key :
  exists result,
    fst (colorOptionToAlphaScale Sample.toHslaColor Sample.toHslaString
           (Obj (map (fun key => (key, Some "red")) ALL_SHADES
                   ++ [("brand", Some "navy")])%list)
           "p" false Sample.freshWindow) = Ok (Some result)
    /\ length (Obj.keys result) = 16%nat
    /\ Obj.get "p25" result = Some "hsla(0/1, 100/1%, 50/1%, 1/1)"
    /\ Obj.get "pbrand" result = Some "hsla(240/1, 100/1%, 25/1%, 1/1)".
Proof. eexists. split; [reflexivity |]. repeat split; reflexivity. Qed.

Lemma hsla_alpha_scale_witness :
  let base := mkHslaColor 240%Q 100%Q 25%Q 1%Q in
  Js.truthyString "navy" = true
  /\ Sample.toHslaColor (Some "navy") = Ok base
  /\ fst (isColorMixSupported false Sample.freshWindow) = false
  /\ fst (colorOptionToAlphaScale Sample.toHslaColor Sample.toHslaString
            (Str "navy") "p" false Sample.freshWindow)
     = Ok (Some (prefixedEntries Sample.toHslaString "p"
                   (map (fun alpha => mkHslaColor (h base) (s base) (l base) alpha)
                        alphas))).
Proof.
  cbv zeta. split; [reflexivity |]. split; [reflexivity |]. split; [reflexivity |].
  exact (proj1 (hsla_alpha_scale_of_string Sample.toHslaColor Sample.toHslaString
                  "navy" "p" (mkHslaColor 240%Q 100%Q 25%Q 1%Q) false Sample.freshWindow
                  eq_refl eq_refl eq_refl)).
Defined.

Lemma merge_prefers_user_witness :
  let red := mkHslaColor 0%Q 100%Q 50%Q 1%Q in
  let navy := mkHslaColor 240%Q 100%Q 25%Q 1%Q in
  let userDefined : HslaScale Q := [("500", Some red); ("700", None)] in
  let generated : HslaScale Q := [("500", Some navy); ("700", Some navy); ("900", Some navy)] in
  NoDup (Obj.keys userDefined)
  /\ Obj.keys (mergeFilledIntoUserDefinedScale generated userDefined) = ["500"; "700"]
  /\ Obj.get "500" (mergeFilledIntoUserDefinedScale generated userDefined) = Some red
  /\ Obj.get "700" (mergeFilledIntoUserDefinedScale generated userDefined) = Some navy
  /\ Obj.get "900" (mergeFilledIntoUserDefinedScale generated userDefined) = None.
Proof.
  cbv zeta.
  assert (Hnd : NoDup (Obj.keys (V := HslaColor Q)
                         [("500", Some (mkHslaColor 0%Q 100%Q 50%Q 1%Q)); ("700", None)])).
  { repeat constructor; simpl; intuition discriminate. }
  split; [exact Hnd |].
  destruct (merge_prefers_user_shades
              [("500", Some (mkHslaColor 240%Q 100%Q 25%Q 1%Q));
               ("700", Some (mkHslaColor 240%Q 100%Q 25%Q 1%Q));
               ("900", Some (mkHslaColor 240%Q 100%Q 25%Q 1%Q))]
              [("500", Some (mkHslaColor 0%Q 100%Q 50%Q 1%Q)); ("700", None)] Hnd)
    as (Hkeys & Hin & Hout).
  split; [exact Hkeys |].
  split; [exact (Hin "500" (or_introl eq_refl)) |].
  split; [exact (Hin "700" (or_intror (or_introl eq_refl))) |].
  apply Hout. simpl. intuition discriminate.
Defined.

Lemma stringify_prints_defined_witness :
  let red := mkHslaColor 0%Q 100%Q 50%Q 1%Q in
  let scale : HslaScale Q := [("500", Some red); ("700", None)] in
  NoDup (Obj.keys scale)
  /\ Obj.get "p500" (prefixAndStringifyHslaScale Sample.toHslaString scale "p")
     = Some (Sample.toHslaString red)
  /\ Obj.get "p700" (prefixAndStringifyHslaScale Sample.toHslaString scale "p") = None.
Proof.
  cbv zeta.
  assert (Hnd : NoDup (Obj.keys (V := HslaColor Q)
                         [("500", Some (mkHslaColor 0%Q 100%Q 50%Q 1%Q)); ("700", None)])).
  { repeat constructor; simpl; intuition discriminate. }
  split; [exact Hnd |].
  pose proof (proj1 (stringify_prints_defined_shades Sample.toHslaString
                       [("500", Some (mkHslaColor 0%Q 100%Q 50%Q 1%Q)); ("700", None)]
                       "p" Hnd)) as Hread.
  split; [exact (Hread "500") | exact (Hread "700")].
Defined.

Example listener_drops_cleared_payload :
  let signedIn : Plugin.Resources nat nat nat nat :=
    {| Plugin.client := Some 1%nat; Plugin.session := Some 2%nat;
       Plugin.user := Some 3%nat; Plugin.organization := None |} in
  let cleared : Plugin.Resources nat nat nat nat :=
    {| Plugin.client := Some 1%nat; Plugin.session := None;
       Plugin.user := None; Plugin.organization := None |} in
  Plugin.afterEmissions [signedIn; cleared] = signedIn
  /\ Plugin.afterEmissions [cleared] = Plugin.initialResources.
Proof. split; reflexivity. Qed.
